(** * django-S3Minio: the [S3Minio] gateway and its helpers

    A shallow embedding of [s3_minio.py].  The module has one class,
    [S3Minio] (methods [upload], [delete], [get_url], [webp_converter]),
    and one free function, [generate_image_filename].

    Layout of the development:
    - [PyStr]   : the [str] methods the module calls;
    - [Py]      : exceptions, outcomes and the state-and-exception monad in
                  which method bodies are written, with [try]/[except] and
                  [for] loops that can [break] and [return];
    - [Env]     : the collaborators the module only calls (the S3 client of
                  boto3, [os]/[shutil], PIL, the Django import) acting on an
                  explicit world;
    - the methods themselves, statement by statement;
    - the properties. *)

From Stdlib Require Import ZArith Ascii String DecimalString.
From stdpp Require Import gmap strings list fin_maps.

Open Scope string_scope.

(** ** Python [str] operations

    A [str] is modelled by a Rocq [string] whose characters are the code
    points below 256. *)
Module PyStr.

(** [str.isspace] on one character: the code points Python treats as
    whitespace in that range. *)
Definition is_space (c : ascii) : bool :=
  let n := nat_of_ascii c in
  (((9 <=? n) && (n <=? 13)) || ((28 <=? n) && (n <=? 32))
   || (n =? 133) || (n =? 160))%nat.

(** [s.lstrip()] *)
Fixpoint lstrip (s : string) : string :=
  match s with
  | "" => ""
  | String c s' => if is_space c then lstrip s' else s
  end.

(** [s.rstrip()] *)
Fixpoint rstrip (s : string) : string :=
  match s with
  | "" => ""
  | String c s' =>
      match rstrip s' with
      | "" => if is_space c then "" else String c ""
      | r => String c r
      end
  end.

(** [s.strip()] *)
Definition strip (s : string) : string := rstrip (lstrip s).

(** [s.replace(old, new)]: every non-overlapping occurrence of [old],
    leftmost first.  [skip] counts the characters of an occurrence that
    has just been replaced and are still to be passed over. *)
Fixpoint replace_from (old new s : string) (skip : nat) : string :=
  match s with
  | "" => ""
  | String c s' =>
      match skip with
      | S k => replace_from old new s' k
      | O =>
          if String.prefix old s
          then new +:+ replace_from old new s' (String.length old - 1)
          else String c (replace_from old new s' 0)
      end
  end.

Fixpoint intersperse (new s : string) : string :=
  match s with
  | "" => new
  | String c s' => new +:+ String c (intersperse new s')
  end.

Definition replace (old new s : string) : string :=
  match old with
  | "" => intersperse new s
  | _ => replace_from old new s 0
  end.

(** [sub in s] *)
Fixpoint contains (sub s : string) : bool :=
  String.prefix sub s ||
  match s with
  | "" => false
  | String _ s' => contains sub s'
  end.

(** [s.split(sep)] for a one-character separator; never empty. *)
Fixpoint split (sep : ascii) (s : string) : list string :=
  match s with
  | "" => [""]
  | String c s' =>
      if Ascii.eqb c sep then "" :: split sep s'
      else match split sep s' with
           | h :: t => String c h :: t
           | [] => [String c ""]
           end
  end.

(** [l[-1]] on the result of a split *)
Definition last_item (l : list string) : string := List.last l "".

(** The character class [[A-Za-z0-9._-]]. *)
Definition in_class (c : ascii) : bool :=
  let n := nat_of_ascii c in
  (((65 <=? n) && (n <=? 90)) || ((97 <=? n) && (n <=? 122))
   || ((48 <=? n) && (n <=? 57))
   || (n =? 46) || (n =? 95) || (n =? 45))%nat.

(** [re.sub(r'[^A-Za-z0-9._-]', '', s)] *)
Fixpoint re_sub_outside_class (s : string) : string :=
  match s with
  | "" => ""
  | String c s' =>
      if in_class c then String c (re_sub_outside_class s')
      else re_sub_outside_class s'
  end.

(** [str(n)] for a non-negative integer, as an f-string prints it *)
Definition of_N (n : N) : string := NilEmpty.string_of_uint (N.to_uint n).

(** [str(b)] for a [bool] *)
Definition of_bool (b : bool) : string := if b then "True" else "False".

(** The line feed, [\n] in the source's literals *)
Definition LF : string := String (ascii_of_nat 10) "".

(** [sep.join(l)] *)
Fixpoint join (sep : string) (l : list string) : string :=
  match l with
  | [] => ""
  | [x] => x
  | x :: l' => x +:+ sep +:+ join sep l'
  end.

(** Every character of [s] satisfies [p]. *)
Fixpoint all_chars (p : ascii -> bool) (s : string) : bool :=
  match s with
  | "" => true
  | String c s' => p c && all_chars p s'
  end.

(** [posixpath.dirname]: the text up to the last slash, without that
    slash and those right before it unless nothing else is left. *)
Fixpoint rfind_slash_head (p : string) : option string :=
  match p with
  | "" => None
  | String c p' =>
      match rfind_slash_head p' with
      | Some h => Some (String c h)
      | None => if Ascii.eqb c "/" then Some (String c "") else None
      end
  end.

Fixpoint rstrip_slash (s : string) : string :=
  match s with
  | "" => ""
  | String c s' =>
      match rstrip_slash s' with
      | "" => if Ascii.eqb c "/" then "" else String c ""
      | r => String c r
      end
  end.

Definition dirname (p : string) : string :=
  match rfind_slash_head p with
  | None => ""
  | Some head =>
      if all_chars (fun c => Ascii.eqb c "/") head then head
      else rstrip_slash head
  end.

End PyStr.

(** ** Exceptions

    The exception classes the module raises, catches or can receive from
    its collaborators, with Python's subclass relation. *)
Inductive ExcClass :=
| BaseException
| KeyboardInterrupt
| Exception
| ValueError
| AttributeError
| ImportError
| ModuleNotFoundError
| OSError
| FileNotFoundError
| NotADirectoryError
| IsADirectoryError
| PermissionError
| UnidentifiedImageError
| BotoCoreError
| EndpointConnectionError
| ClientError
| S3UploadFailedError.

#[global] Instance ExcClass_eq_dec : EqDecision ExcClass.
Proof. solve_decision. Defined.

(** The direct base class. *)
Definition base (c : ExcClass) : option ExcClass :=
  match c with
  | BaseException => None
  | KeyboardInterrupt => Some BaseException
  | Exception => Some BaseException
  | ValueError | AttributeError | ImportError | OSError
  | BotoCoreError | ClientError | S3UploadFailedError => Some Exception
  | ModuleNotFoundError => Some ImportError
  | FileNotFoundError | NotADirectoryError | IsADirectoryError
  | PermissionError | UnidentifiedImageError => Some OSError
  | EndpointConnectionError => Some BotoCoreError
  end.

Fixpoint issubclass_upto (depth : nat) (c d : ExcClass) : bool :=
  bool_decide (c = d) ||
  match depth, base c with
  | S k, Some b => issubclass_upto k b d
  | _, _ => false
  end.

(** [issubclass(c, d)]; no chain of bases is longer than four. *)
Definition issubclass (c d : ExcClass) : bool := issubclass_upto 4 c d.

(** An exception object: its class, [str(exc)], the error code of the
    service response when it is a [ClientError], and [__cause__]. *)
#[warnings="-register-all"] Inductive Exc :=
  MkExc { exc_class : ExcClass;
          exc_str : string;
          exc_code : option string;
          exc_cause : option Exc }.

Definition isinstance (e : Exc) (c : ExcClass) : bool :=
  issubclass (exc_class e) c.

(** [C(msg)] for a built-in class *)
Definition new_exc (c : ExcClass) (msg : string) : Exc :=
  MkExc c msg None None.

(** [raise e from cause]: [e] with [__cause__] set *)
Definition with_cause (e cause : Exc) : Exc :=
  MkExc (exc_class e) (exc_str e) (exc_code e) (Some cause).

(** botocore's [ClientError] for a service response with error code [code] *)
Definition client_error (code operation message : string) : Exc :=
  MkExc ClientError
        ("An error occurred (" +:+ code +:+ ") when calling the " +:+ operation
         +:+ " operation: " +:+ message)
        (Some code) None.

(** ** Values and the world *)

(** A decoded picture: its colour mode and the raster it was read from. *)
Record Picture := { pic_mode : string; pic_raster : string }.

(** The bytes an encoder wrote: format, quality setting and the picture. *)
Record Encoded := { enc_format : string; enc_quality : Z; enc_picture : Picture }.

(** A file object as [webp_converter] receives it: a mutable [name] and
    content that is a readable picture or not. *)
Record FileObj := { name : string; picture : option Picture }.

(** What the methods return. *)
Inductive Value :=
| VNone
| VBool (b : bool)
| VStr (s : string)
| VContentFile (data : Encoded).

(** Entries of the local file system. *)
Inductive Node := File (body : string) | Dir.

(** Requests made through the S3 client. *)
Inductive S3Call :=
| UploadFile (filename bucket key : string)
| DeleteObject (bucket key : string)
| HeadObject (bucket key : string)
| GeneratePresignedUrl (client_method bucket key : string) (expires_in : N).

(** Calls into [os] and [shutil] that can fail. *)
Inductive OsCall :=
| OsRemove (path : string)
| OsListdir (path : string)
| ShutilRmtree (path : string).

(** The world the module runs in.  [s3_fault] and [os_fault] are the
    failures the environment imposes on a call (network, credentials,
    permissions): [Some e] makes that call raise [e].  [s3_log] records
    every request made through the client, in order. *)
Record World := {
  fs : gmap string Node;
  objects : gmap (string * string) string;
  s3_fault : S3Call -> option Exc;
  os_fault : OsCall -> option Exc;
  s3_log : list S3Call;
  stdout : list string;
  django_installed : bool;
  heap : gmap nat FileObj
}.

Definition set_fs (f : gmap string Node) (w : World) : World :=
  {| fs := f; objects := objects w; s3_fault := s3_fault w;
     os_fault := os_fault w; s3_log := s3_log w; stdout := stdout w;
     django_installed := django_installed w; heap := heap w |}.

Definition set_objects (o : gmap (string * string) string) (w : World) : World :=
  {| fs := fs w; objects := o; s3_fault := s3_fault w;
     os_fault := os_fault w; s3_log := s3_log w; stdout := stdout w;
     django_installed := django_installed w; heap := heap w |}.

Definition set_s3_log (l : list S3Call) (w : World) : World :=
  {| fs := fs w; objects := objects w; s3_fault := s3_fault w;
     os_fault := os_fault w; s3_log := l; stdout := stdout w;
     django_installed := django_installed w; heap := heap w |}.

Definition set_stdout (l : list string) (w : World) : World :=
  {| fs := fs w; objects := objects w; s3_fault := s3_fault w;
     os_fault := os_fault w; s3_log := s3_log w; stdout := l;
     django_installed := django_installed w; heap := heap w |}.

Definition set_heap (h : gmap nat FileObj) (w : World) : World :=
  {| fs := fs w; objects := objects w; s3_fault := s3_fault w;
     os_fault := os_fault w; s3_log := s3_log w; stdout := stdout w;
     django_installed := django_installed w; heap := h |}.

(** ** The monad of method bodies *)

(** A computation ends normally with a result or with a raised exception. *)
Inductive Outcome (A : Type) :=
| Ok (a : A)
| Raised (e : Exc).
Arguments Ok {A} a.
Arguments Raised {A} e.

Definition Py (A : Type) : Type := World -> Outcome A * World.

Definition ret {A} (a : A) : Py A := fun w => (Ok a, w).

Definition bind {A B} (m : Py A) (k : A -> Py B) : Py B :=
  fun w =>
    match m w with
    | (Ok a, w') => k a w'
    | (Raised e, w') => (Raised e, w')
    end.

Definition raise {A} (e : Exc) : Py A := fun w => (Raised e, w).

(** [raise e from cause] *)
Definition raise_from {A} (e cause : Exc) : Py A := raise (with_cause e cause).

Declare Scope py_scope.
Delimit Scope py_scope with py.
Notation "x <- m ;; k" := (bind m (fun x => k))
  (at level 100, m at next level, right associativity) : py_scope.
Notation "m ;; k" := (bind m (fun _ => k))
  (at level 100, right associativity) : py_scope.
Open Scope py_scope.

(** An [except C as exc: h] clause: it takes the exception when it is an
    instance of [C]. *)
Definition except {A} (c : ExcClass) (h : Exc -> Py A) : Exc -> option (Py A) :=
  fun e => if isinstance e c then Some (h e) else None.

(** [try: body  except ...: handler]; an exception the clause does not
    take keeps propagating. *)
Definition try_except {A} (body : Py A) (handler : Exc -> option (Py A)) : Py A :=
  fun w =>
    match body w with
    | (Ok a, w') => (Ok a, w')
    | (Raised e, w') =>
        match handler e with
        | Some h => h w'
        | None => (Raised e, w')
        end
    end.

(** How a block of statements ends: it runs off its end, or executes
    [break], or executes [return v]. *)
Inductive Ctl :=
| Normal
| Break
| Return (v : Value).

(** [for x in xs: body] *)
Fixpoint for_in {A} (xs : list A) (body : A -> Py Ctl) : Py Ctl :=
  match xs with
  | [] => ret Normal
  | x :: xs' =>
      c <- body x ;;
      match c with
      | Normal => for_in xs' body
      | Break => ret Normal
      | Return v => ret (Return v)
      end
  end.

(** The value of a call whose body is [block]: the returned value, or
    [None] when the body runs off its end. *)
Definition def_body (block : Py Ctl) : Py Value :=
  c <- block ;;
  match c with
  | Return v => ret v
  | _ => ret VNone
  end.

(** [print(...)]: the arguments joined by a space, then a line feed *)
Definition print (args : list string) : Py unit :=
  fun w => (Ok tt, set_stdout (stdout w ++ [PyStr.join " " args +:+ PyStr.LF]) w).

(** A loop or conditional [first] followed by the statements [next]: a
    [return] or [break] reached in [first] skips [next]. *)
Definition then_ (first next : Py Ctl) : Py Ctl :=
  c <- first ;;
  match c with
  | Normal => next
  | other => ret other
  end.

(** ** The collaborators: [os] and [shutil]

    Paths are compared as written: links and the segments [.] and [..]
    are outside the model. *)

Definition os_call {A} (c : OsCall) (act : Py A) : Py A :=
  fun w =>
    match os_fault w c with
    | Some e => (Raised e, w)
    | None => act w
    end.

(** [os.path.exists(p)] *)
Definition os_path_exists (p : string) : Py bool :=
  fun w => (Ok (match fs w !! p with Some _ => true | None => false end), w).

(** [os.remove(p)] *)
Definition os_remove (p : string) : Py unit :=
  os_call (OsRemove p) (fun w =>
    match fs w !! p with
    | Some (File _) => (Ok tt, set_fs (delete p (fs w)) w)
    | Some Dir =>
        (Raised (new_exc IsADirectoryError ("[Errno 21] Is a directory: '" +:+ p +:+ "'")), w)
    | None =>
        (Raised (new_exc FileNotFoundError
                   ("[Errno 2] No such file or directory: '" +:+ p +:+ "'")), w)
    end).

(** The entries directly inside directory [d], by their paths. *)
Definition children (d : string) (m : gmap string Node) : list string :=
  filter (fun p => PyStr.dirname p = d /\ p <> d) (map fst (map_to_list m)).

(** [os.listdir(d)] *)
Definition os_listdir (d : string) : Py (list string) :=
  os_call (OsListdir d) (fun w =>
    match fs w !! d with
    | Some Dir => (Ok (children d (fs w)), w)
    | Some (File _) =>
        (Raised (new_exc NotADirectoryError ("[Errno 20] Not a directory: '" +:+ d +:+ "'")), w)
    | None =>
        (Raised (new_exc FileNotFoundError
                   ("[Errno 2] No such file or directory: '" +:+ d +:+ "'")), w)
    end).

(** What [shutil.rmtree(d)] leaves: everything but [d] and what is below it. *)
Definition without_tree (d : string) (m : gmap string Node) : gmap string Node :=
  filter (fun entry => entry.1 <> d /\ String.prefix (d +:+ "/") entry.1 = false) m.

(** [shutil.rmtree(d)] *)
Definition shutil_rmtree (d : string) : Py unit :=
  os_call (ShutilRmtree d) (fun w =>
    match fs w !! d with
    | Some Dir => (Ok tt, set_fs (without_tree d (fs w)) w)
    | Some (File _) =>
        (Raised (new_exc NotADirectoryError ("[Errno 20] Not a directory: '" +:+ d +:+ "'")), w)
    | None =>
        (Raised (new_exc FileNotFoundError
                   ("[Errno 2] No such file or directory: '" +:+ d +:+ "'")), w)
    end).

(** ** The collaborators: the S3 client of boto3 *)

Record S3Client := {
  service_name : string;
  endpoint_url : string;
  aws_access_key_id : string;
  aws_secret_access_key : string
}.

(** [boto3.client(service, endpoint_url=..., aws_access_key_id=...,
    aws_secret_access_key=...)]: no request is made. *)
Definition boto3_client (service endpoint key_id secret : string) : S3Client :=
  {| service_name := service; endpoint_url := endpoint;
     aws_access_key_id := key_id; aws_secret_access_key := secret |}.

(** A request through the client is logged, then fails as the
    environment says or is carried out. *)
Definition s3_request {A} (c : S3Call) (act : Py A) : Py A :=
  fun w =>
    let w1 := set_s3_log (s3_log w ++ [c]) w in
    match s3_fault w c with
    | Some e => (Raised e, w1)
    | None => act w1
    end.

(** [client.upload_file(filename, bucket, key)]: the bytes of the local
    file become the object [key] of [bucket]. *)
Definition upload_file (client : S3Client) (filename bucket key : string) : Py unit :=
  s3_request (UploadFile filename bucket key) (fun w =>
    match fs w !! filename with
    | Some (File body) => (Ok tt, set_objects (<[(bucket, key) := body]> (objects w)) w)
    | Some Dir =>
        (Raised (new_exc IsADirectoryError ("[Errno 21] Is a directory: '" +:+ filename +:+ "'")), w)
    | None =>
        (Raised (new_exc FileNotFoundError
                   ("[Errno 2] No such file or directory: '" +:+ filename +:+ "'")), w)
    end).

(** [client.delete_object(Bucket=bucket, Key=key)]: S3 answers alike
    whether the object was there or not. *)
Definition delete_object (client : S3Client) (bucket key : string) : Py unit :=
  s3_request (DeleteObject bucket key) (fun w =>
    (Ok tt, set_objects (delete (bucket, key) (objects w)) w)).

(** [client.head_object(Bucket=bucket, Key=key)]: a missing object is the
    [ClientError] with code 404. *)
Definition head_object (client : S3Client) (bucket key : string) : Py unit :=
  s3_request (HeadObject bucket key) (fun w =>
    match objects w !! (bucket, key) with
    | Some _ => (Ok tt, w)
    | None => (Raised (client_error "404" "HeadObject" "Not Found"), w)
    end).

(** Modelled from the spec: the text of a presigned URL is produced by
    boto3, which is not part of this repository.  The spec describes it as
    a non-empty URL containing the bucket and the key and carrying the
    expiry; it is rendered here in path style, with the signature left
    out. *)
Definition presigned_url_text (client : S3Client) (bucket key : string) (expires_in : N) : string :=
  endpoint_url client +:+ "/" +:+ bucket +:+ "/" +:+ key
  +:+ "?X-Amz-Expires=" +:+ PyStr.of_N expires_in.

(** [client.generate_presigned_url(client_method,
    Params={'Bucket': bucket, 'Key': key}, ExpiresIn=expires_in)] *)
Definition generate_presigned_url (client : S3Client) (client_method bucket key : string)
    (expires_in : N) : Py string :=
  s3_request (GeneratePresignedUrl client_method bucket key expires_in)
    (ret (presigned_url_text client bucket key expires_in)).

(** ** The collaborators: PIL, file objects and the Django import *)

(** [Image.open(image)] for the file object at [ref] *)
Definition Image_open (ref : nat) : Py Picture :=
  fun w =>
    match heap w !! ref with
    | Some f =>
        match picture f with
        | Some p => (Ok p, w)
        | None => (Raised (new_exc UnidentifiedImageError "cannot identify image file"), w)
        end
    | None => (Raised (new_exc AttributeError "not a file object"), w)
    end.

(** [img.convert(mode)] *)
Definition Image_convert (img : Picture) (mode : string) : Py Picture :=
  ret {| pic_mode := mode; pic_raster := pic_raster img |}.

(** [buffer = BytesIO(); img.save(buffer, format, quality=quality)]: the
    bytes the buffer then holds *)
Definition Image_save (img : Picture) (format : string) (quality : Z) : Py Encoded :=
  ret {| enc_format := format; enc_quality := quality; enc_picture := img |}.

(** [image.name] *)
Definition get_name (ref : nat) : Py string :=
  fun w =>
    match heap w !! ref with
    | Some f => (Ok (name f), w)
    | None => (Raised (new_exc AttributeError "not a file object"), w)
    end.

(** [image.name = s] *)
Definition set_name (ref : nat) (s : string) : Py unit :=
  fun w =>
    match heap w !! ref with
    | Some f => (Ok tt, set_heap (<[ref := {| name := s; picture := picture f |}]> (heap w)) w)
    | None => (Raised (new_exc AttributeError "not a file object"), w)
    end.

(** [from django.core.files.base import ContentFile] *)
Definition import_ContentFile : Py unit :=
  fun w =>
    if django_installed w then (Ok tt, w)
    else (Raised (new_exc ModuleNotFoundError "No module named 'django'"), w).

(** ** class [S3Minio] *)
Module S3Minio.

(** The instance: [self.s3] and [self.s3_bucket_name]. *)
Record t := { s3 : S3Client; s3_bucket_name : string }.


(** The body of the loop [for i in args] of [upload]. *)
Definition upload_iteration (self : t) (i : string) : Py Ctl :=
  let path := i in
  let file_direct := "temp/media/" +:+ path in
  try_except (
    print ["Uploading " +:+ file_direct +:+ " to MinIO..."] ;;
    try_except (
      found <- os_path_exists file_direct ;;
      print ["File " +:+ file_direct +:+ PyStr.LF;
             "exists: " +:+ PyStr.of_bool found +:+ PyStr.LF;
             "Bucket: " +:+ s3_bucket_name self +:+ PyStr.LF;
             "Path: " +:+ path] ;;
      upload_file (s3 self) file_direct (s3_bucket_name self) path ;;
      print ["File " +:+ file_direct +:+ " uploaded successfully to MinIO."])
      (except Exception (fun exc =>
         raise_from (new_exc ValueError ("Upload Error: " +:+ exc_str exc)) exc)) ;;
    os_remove file_direct ;;
    let dir_local := PyStr.dirname file_direct in
    empty_dir <- (
      found <- os_path_exists dir_local ;;
      if found : bool then
        entries <- os_listdir dir_local ;;
        ret (match entries with [] => true | _ => false end)
      else ret false) ;;
    (if empty_dir : bool then shutil_rmtree dir_local else ret tt) ;;
    ret (Return (VBool true)))
    (except Exception (fun exc =>
       raise_from (new_exc ValueError ("Upload Error: " +:+ exc_str exc)) exc)).

(** [upload(self, *args)] *)
Definition upload (self : t) (args : list string) : Py Value :=
  def_body (for_in args (upload_iteration self)).

(** The body of the loop [for i in args] of [delete]. *)
Definition delete_iteration (self : t) (i : string) : Py Ctl :=
  let path := i in
  try_except (
    delete_object (s3 self) (s3_bucket_name self) path ;;
    ret (Return (VBool true)))
    (except Exception (fun exc =>
       raise_from (new_exc ValueError ("Delete Error: " +:+ exc_str exc)) exc)).

(** [delete(self, *args)] *)
Definition delete (self : t) (args : list string) : Py Value :=
  def_body (for_in args (delete_iteration self)).

(** [get_url(self, path)] *)
Definition get_url (self : t) (path : string) : Py Value :=
  def_body (
    let bucket_name := s3_bucket_name self in
    try_except (
      head_object (s3 self) bucket_name path ;;
      url <- generate_presigned_url (s3 self) "get_object" bucket_name path 3600 ;;
      ret (Return (VStr url)))
      (except ClientError (fun _ => ret (Return VNone)))).

(** The body of the loop [for e in extensions] of [webp_converter]. *)
Definition rename_iteration (image : nat) (e : string) : Py Ctl :=
  try_except (
    current <- get_name image ;;
    if PyStr.contains e current then
      current <- get_name image ;;
      set_name image (PyStr.replace e ".webp" current) ;;
      ret Break
    else ret Normal)
    (except Exception (fun exc =>
       raise_from
         (new_exc ValueError
            "Converter Error (Exclusive to Django models) | pip install django django-storages")
         exc)).

(** The body of the loop [for image in args] of [webp_converter]. *)
Definition webp_iteration (image : nat) : Py Ctl :=
  try_except (
    img <- Image_open image ;;
    img <- Image_convert img "RGB" ;;
    buffer <- Image_save img "WEBP" 75 ;;
    let extensions := [".jpg"; ".jpeg"; ".png"; ".svg"; ".gif"] in
    then_ (for_in extensions (rename_iteration image))
          (ret (Return (VContentFile buffer))))
    (except Exception (fun exc =>
       raise_from
         (new_exc ValueError
            "Converter Error (Exclusive to Django models) | pip install django")
         exc)).

(** [webp_converter(self, *args)]; the arguments are references to file
    objects in the heap. *)
Definition webp_converter (self : t) (args : list nat) : Py Value :=
  def_body (
    try_except import_ContentFile
      (except ImportError (fun exc =>
         raise_from
           (new_exc ImportError
              "Convert Error (Exclusive to Django models) | pip install django django-storages")
           exc)) ;;
    for_in args webp_iteration).

End S3Minio.

(** ** [generate_image_filename] *)

(** [instance.created_at] *)
Record DateTime := {
  year : N; month : N; day : N; hour : N; minute : N; second : N
}.

(** The model instance: [instance.__class__.__name__] and
    [instance.created_at]. *)
Record ModelInstance := { class_name : string; created_at : DateTime }.

Fixpoint zeros (n : nat) : string :=
  match n with
  | O => ""
  | S n' => String "0" (zeros n')
  end.

(** A number printed in at least [width] characters, zeros first. *)
Definition zero_pad (width : nat) (s : string) : string :=
  zeros (width - String.length s) +:+ s.

(** One [strftime] directive; [%F] is the ISO date [%Y-%m-%d] of the C
    library, and an unknown directive is left as it is. *)
Definition directive (dt : DateTime) (d : ascii) : string :=
  let ymd := zero_pad 4 (PyStr.of_N (year dt)) +:+ "-"
             +:+ zero_pad 2 (PyStr.of_N (month dt)) +:+ "-"
             +:+ zero_pad 2 (PyStr.of_N (day dt)) in
  if Ascii.eqb d "Y" then zero_pad 4 (PyStr.of_N (year dt))
  else if Ascii.eqb d "m" then zero_pad 2 (PyStr.of_N (month dt))
  else if Ascii.eqb d "d" then zero_pad 2 (PyStr.of_N (day dt))
  else if Ascii.eqb d "H" then zero_pad 2 (PyStr.of_N (hour dt))
  else if Ascii.eqb d "M" then zero_pad 2 (PyStr.of_N (minute dt))
  else if Ascii.eqb d "S" then zero_pad 2 (PyStr.of_N (second dt))
  else if Ascii.eqb d "F" then ymd
  else String "%" (String d "").

(** [dt.strftime(fmt)] *)
Fixpoint strftime (dt : DateTime) (fmt : string) : string :=
  match fmt with
  | "" => ""
  | String c rest =>
      if Ascii.eqb c "%" then
        match rest with
        | String d rest' => directive dt d +:+ strftime dt rest'
        | "" => "%"
        end
      else String c (strftime dt rest)
  end.

(** [random.randint(a, b)]: a number between [a] and [b], both included,
    picked by the generator's next [draw]. *)
Definition random_randint (a b : N) (draw : N) : N := (a + draw mod (b - a + 1))%N.

(** The inner function [get_valid_filename]. *)
Definition get_valid_filename (filename : string) : string :=
  let filename := PyStr.replace " " "_" (PyStr.strip filename) in
  PyStr.re_sub_outside_class filename.

(** [generate_image_filename(instance, filename)]; [draw] is what the
    random generator yields during the call. *)
Definition generate_image_filename (draw : N) (instance : ModelInstance) (filename : string)
    : string :=
  let random_number := random_randint 1000 9999 draw in
  let file_ext := PyStr.last_item (PyStr.split "." filename) in
  let class_name := class_name instance in
  let timestamped_name := strftime (created_at instance) "%Y-%m-%d-%H-%M-%S-%F" in
  let valid_filename :=
    get_valid_filename
      (timestamped_name +:+ "-" +:+ PyStr.of_N random_number +:+ "." +:+ file_ext) in
  class_name +:+ "/" +:+ timestamped_name +:+ "/" +:+ valid_filename.

(** ** Vocabulary of the properties *)

(** The staging file of an object key. *)
Definition staging (key : string) : string := "temp/media/" +:+ key.

(** The environment imposes no failure on any call. *)
Definition no_faults (w : World) : Prop :=
  (forall c, s3_fault w c = None) /\ (forall c, os_fault w c = None).

(** A valid staging file for [key]: a regular file with content [body],
    lying in a directory. *)
Definition valid_staging_file (w : World) (key body : string) : Prop :=
  fs w !! staging key = Some (File body) /\
  fs w !! PyStr.dirname (staging key) = Some Dir.

(** The file system once the staging file of [key] is removed and its
    directory, when that leaves it empty, is removed too. *)
Definition cleaned_up (key : string) (m : gmap string Node) : gmap string Node :=
  let m1 := delete (staging key) m in
  let d := PyStr.dirname (staging key) in
  match m1 !! d with
  | Some Dir => match children d m1 with [] => without_tree d m1 | _ => m1 end
  | _ => m1
  end.

(** The error kinds of the gateway: a [ValueError] whose text starts with
    the operation's label. *)
Definition is_upload_error (e : Exc) : Prop :=
  exc_class e = ValueError /\ String.prefix "Upload Error: " (exc_str e) = true.


(** A decimal digit. *)
Definition is_digit (c : ascii) : bool :=
  let n := nat_of_ascii c in ((48 <=? n) && (n <=? 57))%nat.

(** A character a timestamp is made of: a digit or the hyphen. *)
Definition is_stamp_char (c : ascii) : bool := is_digit c || Ascii.eqb c "-".

(** The sanitisation as the specification words it: spaces become
    underscores, then every character outside [[A-Za-z0-9._-]] goes. *)
Definition sanitize_as_specified (s : string) : string :=
  PyStr.re_sub_outside_class (PyStr.replace " " "_" s).

(** The file name as the specification words it. *)
Definition filename_as_specified (draw : N) (instance : ModelInstance) (filename : string)
    : string :=
  let timestamp := strftime (created_at instance) "%Y-%m-%d-%H-%M-%S-%F" in
  let extension := PyStr.last_item (PyStr.split "." filename) in
  class_name instance +:+ "/" +:+ timestamp +:+ "/"
  +:+ sanitize_as_specified
        (timestamp +:+ "-" +:+ PyStr.of_N (random_randint 1000 9999 draw)
         +:+ "." +:+ extension).

(** The extensions [webp_converter] looks for, in the order it tries them. *)
Definition known_extensions : list string := [".jpg"; ".jpeg"; ".png"; ".svg"; ".gif"].

(** The name after the renaming loop over [extensions]: the first of them
    that occurs in the name is replaced by [.webp] wherever it occurs; a
    name in which none occurs stays. *)
Fixpoint renamed_with (extensions : list string) (n : string) : string :=
  match extensions with
  | [] => n
  | e :: rest => if PyStr.contains e n then PyStr.replace e ".webp" n else renamed_with rest n
  end.

(** What [webp_converter] returns for a readable picture. *)
Definition webp_of (p : Picture) : Value :=
  VContentFile {| enc_format := "WEBP"; enc_quality := 75;
                  enc_picture := {| pic_mode := "RGB"; pic_raster := pic_raster p |} |}.

(** The outcome of a call whose body is one iteration of a loop that was
    entered. *)
Definition outcome_of_iteration (o : Outcome Ctl) : Outcome Value :=
  match o with
  | Ok (Return v) => Ok v
  | Ok _ => Ok VNone
  | Raised e => Raised e
  end.

(** ** Sample data *)

Definition post_2024 : ModelInstance :=
  {| class_name := "Post";
     created_at := {| year := 2024; month := 1; day := 2;
                      hour := 3; minute := 4; second := 5 |} |}.

Definition gateway : S3Minio.t :=
  {| S3Minio.s3 := boto3_client "s3" "http://minio:9000" "key-id" "secret";
     S3Minio.s3_bucket_name := "media" |}.

(** A quiet world: two staged files in one directory, one stored object,
    two file objects, Django installed, no failure imposed. *)
Definition quiet_world : World :=
  {| fs := {[ "temp/media" := Dir;
              "temp/media/a.png" := File "bytes of a";
              "temp/media/b.png" := File "bytes of b" ]};
     objects := {[ ("media", "old.png") := "bytes of old" ]};
     s3_fault := fun _ => None;
     os_fault := fun _ => None;
     s3_log := [];
     stdout := [];
     django_installed := true;
     heap := {[ 1%nat := {| name := "a.png";
                            picture := Some {| pic_mode := "RGBA"; pic_raster := "raster a" |} |};
                2%nat := {| name := "b.png";
                            picture := Some {| pic_mode := "RGBA"; pic_raster := "raster b" |} |} ]} |}.

(** The same world with every request through the client failing with [e]. *)
Definition failing_backend (e : Exc) (w : World) : World :=
  {| fs := fs w; objects := objects w; s3_fault := fun _ => Some e;
     os_fault := os_fault w; s3_log := s3_log w; stdout := stdout w;
     django_installed := django_installed w; heap := heap w |}.

(** The same world without Django. *)
Definition without_django (w : World) : World :=
  {| fs := fs w; objects := objects w; s3_fault := s3_fault w;
     os_fault := os_fault w; s3_log := s3_log w; stdout := stdout w;
     django_installed := false; heap := heap w |}.

Definition connection_error : Exc :=
  new_exc EndpointConnectionError "Could not connect to the endpoint URL".

Definition access_denied : Exc := client_error "403" "HeadObject" "Forbidden".

(** The same world with every fallible call into [os] and [shutil]
    failing with [e]. *)
Definition failing_os (e : Exc) (w : World) : World :=
  {| fs := fs w; objects := objects w; s3_fault := s3_fault w;
     os_fault := fun _ => Some e; s3_log := s3_log w; stdout := stdout w;
     django_installed := django_installed w; heap := heap w |}.

(** The same world with the generation of presigned URLs, and nothing
    else, failing with [e]. *)
Definition failing_presigner (e : Exc) (w : World) : World :=
  {| fs := fs w; objects := objects w;
     s3_fault := fun c => match c with
                          | GeneratePresignedUrl _ _ _ _ => Some e
                          | _ => s3_fault w c
                          end;
     os_fault := os_fault w; s3_log := s3_log w; stdout := stdout w;
     django_installed := django_installed w; heap := heap w |}.

Definition permission_error : Exc := new_exc PermissionError "[Errno 13] Permission denied".

(** The same world with the file objects [files] in place of its own. *)
Definition with_files (files : gmap nat FileObj) (w : World) : World := set_heap files w.

(** * Properties *)

(** ** The model on small inputs *)

Example strip_example : PyStr.strip "  a b  " = "a b".
Proof. reflexivity. Qed.

Example replace_example : PyStr.replace ".jpg" ".webp" "a.jpg.b.jpg" = "a.webp.b.webp".
Proof. reflexivity. Qed.

Example split_example : PyStr.split "." "My Photo #1.JPG" = ["My Photo #1"; "JPG"].
Proof. reflexivity. Qed.

Example split_no_dot : PyStr.last_item (PyStr.split "." "photo") = "photo".
Proof. reflexivity. Qed.

Example dirname_nested : PyStr.dirname "temp/media/Post/a.png" = "temp/media/Post".
Proof. reflexivity. Qed.

Example dirname_flat : PyStr.dirname "temp/media/a.png" = "temp/media".
Proof. reflexivity. Qed.

Example issubclass_examples :
  issubclass EndpointConnectionError Exception = true /\
  issubclass EndpointConnectionError ClientError = false /\
  issubclass KeyboardInterrupt Exception = false /\
  issubclass ModuleNotFoundError ImportError = true.
Proof. repeat split. Qed.

Example upload_missing_file :
  exists err, fst (S3Minio.upload gateway ["zz.png"; "a.png"] quiet_world) = Raised err
              /\ is_upload_error err.
Proof. eexists. split; [vm_compute; reflexivity|split; reflexivity]. Qed.

Example upload_then_upload_removes_directory :
  let w1 := snd (S3Minio.upload gateway ["a.png"] quiet_world) in
  let w2 := snd (S3Minio.upload gateway ["b.png"] w1) in
  fs w1 !! "temp/media" = Some Dir /\ fs w2 !! "temp/media" = None.
Proof. split; vm_compute; reflexivity. Qed.

(** ** Loops that leave at their first iteration *)

(** A loop whose first iteration does not run off its end never reaches
    the second element. *)
Lemma for_in_exits {A} (body : A -> Py Ctl) (x : A) (xs : list A) (w : World) :
  fst (body x w) <> Ok Normal ->
  for_in (x :: xs) body w = for_in [x] body w.
Proof.
  intros Hexit. simpl. unfold bind.
  destruct (body x w) as [[c|e] w1]; [|reflexivity].
  destruct c; simpl in *; [congruence|reflexivity|reflexivity].
Qed.

Lemma upload_iteration_exits (self : S3Minio.t) (i : string) (w : World) :
  fst (S3Minio.upload_iteration self i w) <> Ok Normal.
Proof.
  unfold S3Minio.upload_iteration, try_except, bind, except, raise_from, raise, ret.
  repeat (case_match; simplify_eq/=); congruence.
Qed.

(** What a successful iteration of [upload] has done. *)
Lemma upload_iteration_Ok (self : S3Minio.t) (k : string) (w w' : World) (c : Ctl) :
  S3Minio.upload_iteration self k w = (Ok c, w') ->
  c = Return (VBool true) /\
  exists body,
    fs w !! staging k = Some (File body) /\
    fs w' = cleaned_up k (fs w) /\
    objects w' = <[(S3Minio.s3_bucket_name self, k) := body]> (objects w) /\
    s3_log w' = (s3_log w ++ [UploadFile (staging k) (S3Minio.s3_bucket_name self) k])%list /\
    (forall b, delete (staging k) (fs w) !! PyStr.dirname (staging k) <> Some (File b)).
Proof.
  unfold S3Minio.upload_iteration, try_except, bind, except, raise_from, raise, ret,
    print, os_path_exists, upload_file, s3_request, os_remove, os_listdir,
    shutil_rmtree, os_call, cleaned_up.
  fold (staging k).
  intros H.
  repeat (case_match; simplify_eq/=).
  all: split; [reflexivity|]; eexists; repeat split; try eassumption; try reflexivity.
  all: congruence.
Qed.

(** With a valid staging file and no failure imposed, an iteration of
    [upload] succeeds. *)
Lemma upload_iteration_succeeds (self : S3Minio.t) (k body : string) (w : World) :
  valid_staging_file w k body -> no_faults w ->
  exists w', S3Minio.upload_iteration self k w = (Ok (Return (VBool true)), w').
Proof.
  intros [Hfile Hdir] [Hs3 Hos].
  assert (Hdir1 : delete (staging k) (fs w) !! PyStr.dirname (staging k) = Some Dir).
  { rewrite lookup_delete_ne; [exact Hdir|]. intros Heq. rewrite Heq in Hfile. congruence. }
  destruct (S3Minio.upload_iteration self k w) as [[c|e] w'] eqn:E.
  - apply upload_iteration_Ok in E as [-> _]. eauto.
  - exfalso. revert E.
    unfold S3Minio.upload_iteration, try_except, bind, except, raise_from, raise, ret,
      print, os_path_exists, upload_file, s3_request, os_remove, os_listdir,
      shutil_rmtree, os_call.
    fold (staging k). simpl.
    rewrite Hfile, Hs3. simpl. rewrite Hfile, !Hos. simpl. rewrite Hdir1. simpl.
    rewrite Hos, Hdir1. simpl.
    destruct (children _ _); simpl; [rewrite Hos, Hdir1|]; simpl; discriminate.
Qed.

Lemma delete_iteration_exits (self : S3Minio.t) (i : string) (w : World) :
  fst (S3Minio.delete_iteration self i w) <> Ok Normal.
Proof.
  unfold S3Minio.delete_iteration, try_except, bind, except, raise_from, raise, ret,
    delete_object, s3_request.
  repeat (case_match; simplify_eq/=); congruence.
Qed.

(** Whatever the first key leads to, [upload] does for a longer sequence
    what it does for the first key alone. *)
Lemma upload_stops_after_first (self : S3Minio.t) (k : string) (rest : list string) (w : World) :
  S3Minio.upload self (k :: rest) w = S3Minio.upload self [k] w.
Proof.
  unfold S3Minio.upload, def_body, bind.
  rewrite (for_in_exits _ k rest w) by apply upload_iteration_exits.
  reflexivity.
Qed.

Lemma delete_stops_after_first (self : S3Minio.t) (k : string) (rest : list string) (w : World) :
  S3Minio.delete self (k :: rest) w = S3Minio.delete self [k] w.
Proof.
  unfold S3Minio.delete, def_body, bind.
  rewrite (for_in_exits _ k rest w) by apply delete_iteration_exits.
  reflexivity.
Qed.

(** A call of [upload] on one key is one iteration. *)
Lemma upload_single (self : S3Minio.t) (k : string) (w w' : World) (v : Value) :
  S3Minio.upload self [k] w = (Ok v, w') ->
  S3Minio.upload_iteration self k w = (Ok (Return v), w').
Proof.
  unfold S3Minio.upload, def_body. simpl. unfold bind, ret.
  destruct (S3Minio.upload_iteration self k w) as [[c|e] w1] eqn:E; [|discriminate].
  apply upload_iteration_Ok in E as [-> _]. simpl. congruence.
Qed.

Lemma upload_single_of_iteration (self : S3Minio.t) (k : string) (w w' : World) (v : Value) :
  S3Minio.upload_iteration self k w = (Ok (Return v), w') ->
  S3Minio.upload self [k] w = (Ok v, w').
Proof.
  intros E. unfold S3Minio.upload, def_body. simpl. unfold bind, ret.
  rewrite E. reflexivity.
Qed.

(** ** The file system after the clean-up *)

Lemma cleaned_up_staging (k : string) (m : gmap string Node) :
  cleaned_up k m !! staging k = None.
Proof.
  unfold cleaned_up, without_tree.
  repeat case_match; try apply lookup_delete_eq.
  apply map_lookup_filter_None_2. left. apply lookup_delete_eq.
Qed.

Lemma cleaned_up_empty_dir (k : string) (m : gmap string Node) :
  (forall b, delete (staging k) m !! PyStr.dirname (staging k) <> Some (File b)) ->
  children (PyStr.dirname (staging k)) (delete (staging k) m) = [] ->
  cleaned_up k m !! PyStr.dirname (staging k) = None.
Proof.
  intros Hnofile Hempty. unfold cleaned_up. rewrite Hempty.
  destruct (delete (staging k) m !! PyStr.dirname (staging k)) as [[b|]|] eqn:E.
  - exfalso. exact (Hnofile b eq_refl).
  - unfold without_tree. apply map_lookup_filter_None_2. right.
    intros x _ [Hne _]. simpl in Hne. congruence.
  - exact E.
Qed.

(** ** Upload *)

(** C1. Given two or more keys, [upload] deals with the first key only:
    when the first key has a valid staging file and the environment
    imposes no failure, the call returns [True], the only request made
    through the client is the upload of the first key's staging file, the
    bucket gains that one object, and the staging file is gone; the call
    is in every respect the call on the first key alone. *)
Theorem upload_processes_only_first_key
    (self : S3Minio.t) (k1 k2 : string) (rest : list string) (body : string) (w : World) :
  valid_staging_file w k1 body -> no_faults w ->
  exists w',
    S3Minio.upload self (k1 :: k2 :: rest) w = (Ok (VBool true), w') /\
    S3Minio.upload self (k1 :: k2 :: rest) w = S3Minio.upload self [k1] w /\
    s3_log w' = (s3_log w ++ [UploadFile (staging k1) (S3Minio.s3_bucket_name self) k1])%list /\
    objects w' = <[(S3Minio.s3_bucket_name self, k1) := body]> (objects w) /\
    fs w' = cleaned_up k1 (fs w) /\
    fs w' !! staging k1 = None.
Proof.
  intros Hvalid Hquiet.
  destruct (upload_iteration_succeeds self k1 body w Hvalid Hquiet) as [w' E].
  exists w'. rewrite upload_stops_after_first.
  split; [exact (upload_single_of_iteration _ _ _ _ _ E)|].
  split; [reflexivity|].
  apply upload_iteration_Ok in E as [_ (body' & Hfile & Hfs & Hobj & Hlog & _)].
  destruct Hvalid as [Hfile' _]. rewrite Hfile' in Hfile. injection Hfile as <-.
  repeat split; try assumption.
  rewrite Hfs. apply cleaned_up_staging.
Qed.

(** C4. After a successful upload of the key of a valid staging file, the
    bucket holds the file's content under that key, the staging file no
    longer exists, and its directory, if removing the file left it empty,
    no longer exists either. *)
Theorem upload_single_staging_file
    (self : S3Minio.t) (k body : string) (w w' : World) (v : Value) :
  fs w !! staging k = Some (File body) ->
  S3Minio.upload self [k] w = (Ok v, w') ->
  v = VBool true /\
  objects w' !! (S3Minio.s3_bucket_name self, k) = Some body /\
  fs w' !! staging k = None /\
  (children (PyStr.dirname (staging k)) (delete (staging k) (fs w)) = [] ->
   fs w' !! PyStr.dirname (staging k) = None).
Proof.
  intros Hfile Hcall. apply upload_single in Hcall.
  apply upload_iteration_Ok in Hcall as [Hv (body' & Hfile' & Hfs & Hobj & _ & Hnofile)].
  rewrite Hfile in Hfile'. injection Hfile' as <-.
  split; [congruence|].
  split; [rewrite Hobj; apply lookup_insert_eq|].
  rewrite Hfs.
  split; [apply cleaned_up_staging|].
  intros Hempty. apply cleaned_up_empty_dir; assumption.
Qed.

Lemma upload_processes_only_first_key_witness :
  valid_staging_file quiet_world "a.png" "bytes of a" /\
  no_faults quiet_world /\
  exists w',
    S3Minio.upload gateway ["a.png"; "b.png"; "c.png"] quiet_world = (Ok (VBool true), w') /\
    S3Minio.upload gateway ["a.png"; "b.png"; "c.png"] quiet_world
      = S3Minio.upload gateway ["a.png"] quiet_world /\
    s3_log w' = [UploadFile "temp/media/a.png" "media" "a.png"] /\
    objects w' = <[("media", "a.png") := "bytes of a"]> (objects quiet_world) /\
    fs w' = cleaned_up "a.png" (fs quiet_world) /\
    fs w' !! "temp/media/a.png" = None.
Proof.
  assert (Hvalid : valid_staging_file quiet_world "a.png" "bytes of a")
    by (split; vm_compute; reflexivity).
  assert (Hquiet : no_faults quiet_world) by (split; intros c; reflexivity).
  split; [exact Hvalid|]. split; [exact Hquiet|].
  exact (upload_processes_only_first_key gateway "a.png" "b.png" ["c.png"]
           "bytes of a" quiet_world Hvalid Hquiet).
Defined.

Lemma upload_single_staging_file_witness :
  fs quiet_world !! staging "b.png" = Some (File "bytes of b") /\
  exists w',
    S3Minio.upload gateway ["b.png"] quiet_world = (Ok (VBool true), w') /\
    objects w' !! ("media", "b.png") = Some "bytes of b" /\
    fs w' !! staging "b.png" = None.
Proof.
  assert (Hvalid : valid_staging_file quiet_world "b.png" "bytes of b")
    by (split; vm_compute; reflexivity).
  assert (Hquiet : no_faults quiet_world) by (split; intros c; reflexivity).
  destruct (upload_iteration_succeeds gateway "b.png" _ quiet_world Hvalid Hquiet)
    as [w' Hiter].
  pose proof (upload_single_of_iteration _ _ _ _ _ Hiter) as Hcall.
  destruct (upload_single_staging_file gateway "b.png" "bytes of b" quiet_world w'
              (VBool true) (proj1 Hvalid) Hcall) as (_ & Hobj & Hgone & _).
  split; [exact (proj1 Hvalid)|].
  exists w'. split; [exact Hcall|]. split; [exact Hobj|exact Hgone].
Defined.

(** ** Delete *)

(** C5. Given two or more keys, [delete] deletes the first key only: when
    the request for the first key does not fail, the call returns [True],
    the only request made through the client is the deletion of the first
    key, and every other object of the bucket is as it was. *)
Theorem delete_processes_only_first_key
    (self : S3Minio.t) (k1 k2 : string) (rest : list string) (w : World) :
  s3_fault w (DeleteObject (S3Minio.s3_bucket_name self) k1) = None ->
  exists w',
    S3Minio.delete self (k1 :: k2 :: rest) w = (Ok (VBool true), w') /\
    s3_log w' = (s3_log w ++ [DeleteObject (S3Minio.s3_bucket_name self) k1])%list /\
    objects w' = delete (S3Minio.s3_bucket_name self, k1) (objects w) /\
    (forall k, k <> k1 ->
       objects w' !! (S3Minio.s3_bucket_name self, k)
       = objects w !! (S3Minio.s3_bucket_name self, k)) /\
    fs w' = fs w.
Proof.
  intros Hok. rewrite delete_stops_after_first.
  unfold S3Minio.delete, def_body. simpl.
  unfold S3Minio.delete_iteration, try_except, bind, ret, delete_object, s3_request.
  rewrite Hok. simpl. eexists. split; [reflexivity|]. simpl.
  repeat split.
  intros k Hne. apply lookup_delete_ne. congruence.
Qed.

Lemma delete_processes_only_first_key_witness :
  s3_fault quiet_world (DeleteObject "media" "old.png") = None /\
  exists w',
    S3Minio.delete gateway ["old.png"; "a.png"] quiet_world = (Ok (VBool true), w') /\
    s3_log w' = [DeleteObject "media" "old.png"] /\
    objects w' !! ("media", "old.png") = None.
Proof.
  split; [reflexivity|].
  destruct (delete_processes_only_first_key gateway "old.png" "a.png" [] quiet_world eq_refl)
    as (w' & Hcall & Hlog & Hobj & _).
  exists w'. repeat split; [exact Hcall|exact Hlog|].
  rewrite Hobj. apply lookup_delete_eq.
Defined.

(** C10. Called with no key at all, [upload] and [delete] return [None]
    and leave the world as it is: no request is made through the client,
    nothing is printed, no file is touched. *)
Theorem upload_delete_without_keys (self : S3Minio.t) (w : World) :
  S3Minio.upload self [] w = (Ok VNone, w) /\
  S3Minio.delete self [] w = (Ok VNone, w).
Proof. split; reflexivity. Qed.

(** ** The image converter *)

(** C9. Without Django, [webp_converter] raises an [ImportError] caused
    by the failed import, whatever its arguments, and leaves the world as
    it is: no image is opened, converted or renamed. *)
Theorem webp_converter_requires_django (self : S3Minio.t) (args : list nat) (w : World) :
  django_installed w = false ->
  exists err cause,
    S3Minio.webp_converter self args w = (Raised err, w) /\
    exc_class err = ImportError /\
    exc_str err
      = "Convert Error (Exclusive to Django models) | pip install django django-storages" /\
    exc_cause err = Some cause /\
    isinstance cause ImportError = true.
Proof.
  intros Hno.
  unfold S3Minio.webp_converter, def_body, try_except, bind, import_ContentFile.
  rewrite Hno. simpl.
  eexists. eexists. split; [reflexivity|]. repeat split.
Qed.

Lemma webp_converter_requires_django_witness :
  django_installed (without_django quiet_world) = false /\
  exists err cause,
    S3Minio.webp_converter gateway [1%nat; 2%nat] (without_django quiet_world)
      = (Raised err, without_django quiet_world) /\
    exc_class err = ImportError /\
    exc_str err
      = "Convert Error (Exclusive to Django models) | pip install django django-storages" /\
    exc_cause err = Some cause /\
    isinstance cause ImportError = true.
Proof.
  split; [reflexivity|].
  exact (webp_converter_requires_django gateway [1%nat; 2%nat]
           (without_django quiet_world) eq_refl).
Defined.

(** ** Text *)

Lemma prefix_nil (s : string) : String.prefix "" s = true.
Proof. destruct s; reflexivity. Qed.

Lemma prefix_append (s t : string) : String.prefix s (s +:+ t) = true.
Proof.
  induction s as [|c s IH]; simpl; [apply prefix_nil|].
  destruct (ascii_dec c c); [exact IH|congruence].
Qed.

Lemma contains_prefix (sub s : string) :
  String.prefix sub s = true -> PyStr.contains sub s = true.
Proof. intros H. destruct s; cbn [PyStr.contains]; rewrite H; reflexivity. Qed.

Lemma contains_append_r (sub pre s : string) :
  PyStr.contains sub s = true -> PyStr.contains sub (pre +:+ s) = true.
Proof.
  intros H. induction pre as [|c pre IH]; simpl; [exact H|].
  rewrite IH. apply orb_true_r.
Qed.

Lemma contains_append_l (sub post : string) : PyStr.contains sub (sub +:+ post) = true.
Proof. apply contains_prefix, prefix_append. Qed.

(** ** Errors of upload and delete *)




(** ** Presigned URLs *)

(** C2. When the backend answers, [get_url] returns for a stored object
    the URL the client generates for [get_object] on the gateway's bucket
    and the key with [ExpiresIn=3600] -- a non-empty text containing the
    bucket, the key and that expiry -- and for an absent object it returns
    [None] and raises nothing. *)
Theorem get_url_present_or_absent (self : S3Minio.t) (key : string) (w : World) :
  (forall c, s3_fault w c = None) ->
  let bucket := S3Minio.s3_bucket_name self in
  let url := presigned_url_text (S3Minio.s3 self) bucket key 3600 in
  (forall body, objects w !! (bucket, key) = Some body ->
     exists w',
       S3Minio.get_url self key w = (Ok (VStr url), w') /\
       url <> "" /\
       PyStr.contains bucket url = true /\
       PyStr.contains key url = true /\
       PyStr.contains "X-Amz-Expires=3600" url = true /\
       s3_log w' = (s3_log w ++ [HeadObject bucket key;
                                 GeneratePresignedUrl "get_object" bucket key 3600])%list) /\
  (objects w !! (bucket, key) = None ->
     exists w',
       S3Minio.get_url self key w = (Ok VNone, w') /\
       s3_log w' = (s3_log w ++ [HeadObject bucket key])%list).
Proof.
  intros Hanswers bucket url. split.
  - intros body Hstored.
    unfold S3Minio.get_url, def_body, try_except, bind, ret, head_object,
      generate_presigned_url, s3_request.
    simpl. rewrite !Hanswers. simpl. fold bucket. rewrite Hstored. simpl.
    rewrite Hanswers. simpl.
    eexists. split; [reflexivity|].
    split; [|split; [|split; [|split]]].
    + unfold url, presigned_url_text. destruct (endpoint_url (S3Minio.s3 self)); discriminate.
    + unfold url, presigned_url_text.
      do 2 apply contains_append_r. apply contains_append_l.
    + unfold url, presigned_url_text.
      do 4 apply contains_append_r. apply contains_append_l.
    + unfold url, presigned_url_text.
      do 5 apply contains_append_r. reflexivity.
    + simpl. rewrite <- app_assoc. reflexivity.
  - intros Habsent.
    unfold S3Minio.get_url, def_body, try_except, bind, ret, head_object, s3_request.
    simpl. rewrite !Hanswers. simpl. fold bucket. rewrite Habsent. simpl.
    eexists. split; reflexivity.
Qed.

Lemma get_url_present_or_absent_witness :
  (forall c, s3_fault quiet_world c = None) /\
  (exists w',
     S3Minio.get_url gateway "old.png" quiet_world
       = (Ok (VStr "http://minio:9000/media/old.png?X-Amz-Expires=3600"), w')) /\
  (exists w', S3Minio.get_url gateway "new.png" quiet_world = (Ok VNone, w')).
Proof.
  assert (Hanswers : forall c, s3_fault quiet_world c = None) by (intros c; reflexivity).
  split; [exact Hanswers|]. split.
  - destruct (get_url_present_or_absent gateway "old.png" quiet_world Hanswers)
      as [Hpresent _].
    destruct (Hpresent "bytes of old" ltac:(vm_compute; reflexivity)) as (w' & Hcall & _).
    exists w'. exact Hcall.
  - destruct (get_url_present_or_absent gateway "new.png" quiet_world Hanswers)
      as [_ Habsent].
    destruct (Habsent ltac:(vm_compute; reflexivity)) as (w' & Hcall & _).
    exists w'. exact Hcall.
Defined.




(** ** Trimming, replacing and filtering text *)

Lemma lstrip_append_stop (a r : string) (c : ascii) :
  PyStr.is_space c = false ->
  PyStr.lstrip (a +:+ String c r) = PyStr.lstrip a +:+ String c r.
Proof.
  intros Hc. induction a as [|x a IH]; simpl.
  - rewrite Hc. reflexivity.
  - destruct (PyStr.is_space x); [exact IH|reflexivity].
Qed.

Lemma rstrip_cons_stop (b : string) (c : ascii) :
  PyStr.is_space c = false ->
  PyStr.rstrip (String c b) = String c (PyStr.rstrip b).
Proof. intros Hc. simpl. destruct (PyStr.rstrip b); [rewrite Hc|]; reflexivity. Qed.

Lemma rstrip_append (x y : string) :
  PyStr.rstrip y <> "" -> PyStr.rstrip (x +:+ y) = x +:+ PyStr.rstrip y.
Proof.
  intros Hy. induction x as [|c x IH]; [reflexivity|].
  change (String c x +:+ y) with (String c (x +:+ y)).
  change (String c x +:+ PyStr.rstrip y) with (String c (x +:+ PyStr.rstrip y)).
  simpl. rewrite IH.
  destruct (x +:+ PyStr.rstrip y) eqn:E; [|reflexivity].
  exfalso. destruct x; [exact (Hy E)|discriminate E].
Qed.

(** Trimming a name of the form [<stamp>-<number>.<extension>] trims the
    stamp on its left and the extension on its right. *)
Lemma strip_stamped_name (a m b : string) :
  PyStr.strip (a +:+ "-" +:+ m +:+ "." +:+ b)
  = PyStr.lstrip a +:+ "-" +:+ m +:+ "." +:+ PyStr.rstrip b.
Proof.
  unfold PyStr.strip.
  change (a +:+ "-" +:+ m +:+ "." +:+ b) with (a +:+ String "-" (m +:+ String "." b)).
  rewrite lstrip_append_stop by reflexivity.
  assert (Hdot : PyStr.rstrip (String "." b) = String "." (PyStr.rstrip b))
    by (apply rstrip_cons_stop; reflexivity).
  assert (Hmid : PyStr.rstrip (m +:+ String "." b) = m +:+ String "." (PyStr.rstrip b))
    by (rewrite rstrip_append; rewrite Hdot; [reflexivity|discriminate]).
  rewrite rstrip_append; rewrite rstrip_cons_stop by reflexivity; rewrite Hmid;
    [reflexivity|discriminate].
Qed.

Lemma replace_space_cons (c : ascii) (s : string) :
  PyStr.replace " " "_" (String c s)
  = String (if Ascii.eqb c " " then "_"%char else c) (PyStr.replace " " "_" s).
Proof.
  unfold PyStr.replace. cbn [PyStr.replace_from String.prefix String.length Nat.sub].
  destruct (ascii_dec " " c) as [<-|Hne].
  - rewrite prefix_nil. reflexivity.
  - destruct (Ascii.eqb_spec c " "); [congruence|reflexivity].
Qed.

Lemma replace_space_append (x y : string) :
  PyStr.replace " " "_" (x +:+ y) = PyStr.replace " " "_" x +:+ PyStr.replace " " "_" y.
Proof.
  induction x as [|c x IH]; [reflexivity|].
  change (String c x +:+ y) with (String c (x +:+ y)).
  rewrite !replace_space_cons, IH. reflexivity.
Qed.

Lemma re_sub_append (x y : string) :
  PyStr.re_sub_outside_class (x +:+ y)
  = PyStr.re_sub_outside_class x +:+ PyStr.re_sub_outside_class y.
Proof.
  induction x as [|c x IH]; [reflexivity|].
  simpl. destruct (PyStr.in_class c); simpl; rewrite IH; reflexivity.
Qed.

Lemma sanitize_append (x y : string) :
  sanitize_as_specified (x +:+ y) = sanitize_as_specified x +:+ sanitize_as_specified y.
Proof. unfold sanitize_as_specified. rewrite replace_space_append. apply re_sub_append. Qed.

Lemma re_sub_in_class (s : string) :
  PyStr.all_chars PyStr.in_class (PyStr.re_sub_outside_class s) = true.
Proof.
  induction s as [|c s IH]; [reflexivity|].
  simpl. destruct (PyStr.in_class c) eqn:E; simpl; [rewrite E|]; exact IH.
Qed.

Lemma all_chars_append (p : ascii -> bool) (x y : string) :
  PyStr.all_chars p (x +:+ y) = PyStr.all_chars p x && PyStr.all_chars p y.
Proof.
  induction x as [|c x IH]; [reflexivity|].
  simpl. rewrite IH. apply andb_assoc.
Qed.

Lemma all_chars_impl (p q : ascii -> bool) (s : string) :
  (forall c, p c = true -> q c = true) ->
  PyStr.all_chars p s = true -> PyStr.all_chars q s = true.
Proof.
  intros Hpq. induction s as [|c s IH]; [reflexivity|].
  simpl. intros [Hc Hs]%andb_true_iff. rewrite (Hpq c Hc). exact (IH Hs).
Qed.

(** ** Digits and timestamps *)

Lemma string_of_uint_digits (d : Decimal.uint) :
  PyStr.all_chars is_digit (NilEmpty.string_of_uint d) = true.
Proof. induction d; simpl; try exact IHd; reflexivity. Qed.

Lemma of_N_digits (n : N) : PyStr.all_chars is_digit (PyStr.of_N n) = true.
Proof. apply string_of_uint_digits. Qed.

Lemma stamp_char_plain (c : ascii) :
  is_stamp_char c = true ->
  PyStr.in_class c = true /\ PyStr.is_space c = false /\ Ascii.eqb c " " = false.
Proof.
  destruct c as [[] [] [] [] [] [] [] []]; vm_compute; intros H;
    first [discriminate H | repeat split].
Qed.

Lemma digit_is_stamp_char (c : ascii) : is_digit c = true -> is_stamp_char c = true.
Proof. unfold is_stamp_char. intros ->. reflexivity. Qed.

(** Text made of digits and hyphens is left alone by trimming and by the
    sanitisation. *)
Lemma sanitize_stamp (s : string) :
  PyStr.all_chars is_stamp_char s = true -> sanitize_as_specified s = s.
Proof.
  unfold sanitize_as_specified.
  induction s as [|c s IH]; [reflexivity|].
  intros H. cbn [PyStr.all_chars] in H. apply andb_true_iff in H as [Hc Hs].
  destruct (stamp_char_plain c Hc) as (Hclass & _ & Hnot).
  rewrite replace_space_cons, Hnot. cbn [PyStr.re_sub_outside_class].
  rewrite Hclass, (IH Hs). reflexivity.
Qed.

Lemma lstrip_stamp (s : string) :
  PyStr.all_chars is_stamp_char s = true -> PyStr.lstrip s = s.
Proof.
  destruct s as [|c s]; [reflexivity|].
  simpl. intros [Hc _]%andb_true_iff.
  destruct (stamp_char_plain c Hc) as (_ & -> & _). reflexivity.
Qed.

Lemma zero_pad_stamp (width : nat) (s : string) :
  PyStr.all_chars is_stamp_char s = true ->
  PyStr.all_chars is_stamp_char (zero_pad width s) = true.
Proof.
  intros Hs. unfold zero_pad.
  induction (width - String.length s)%nat as [|n IH]; [exact Hs|exact IH].
Qed.

Lemma padded_number_stamp (width : nat) (n : N) :
  PyStr.all_chars is_stamp_char (zero_pad width (PyStr.of_N n)) = true.
Proof.
  apply zero_pad_stamp.
  exact (all_chars_impl _ _ _ digit_is_stamp_char (of_N_digits n)).
Qed.

(** The timestamp of the file name is made of digits and hyphens. *)
Lemma timestamp_stamp (dt : DateTime) :
  PyStr.all_chars is_stamp_char (strftime dt "%Y-%m-%d-%H-%M-%S-%F") = true.
Proof.
  cbn [strftime Ascii.eqb Bool.eqb directive].
  repeat (rewrite all_chars_append; cbn [PyStr.all_chars]).
  rewrite !padded_number_stamp. reflexivity.
Qed.

Lemma randint_range (a b draw : N) :
  (a <= b)%N -> (a <= random_randint a b draw <= b)%N.
Proof.
  intros Hab. unfold random_randint.
  assert (Hlt : (draw mod (b - a + 1) < b - a + 1)%N) by (apply N.mod_lt; lia).
  revert Hlt. generalize (draw mod (b - a + 1))%N. intros r Hlt. lia.
Qed.

Lemma four_digits (n : N) :
  (1000 <= n <= 9999)%N -> String.length (PyStr.of_N n) = 4%nat.
Proof.
  intros Hn.
  assert (Hall : forallb (fun i => String.length (PyStr.of_N (1000 + N.of_nat i)) =? 4)%nat
                         (seq 0 (N.to_nat 9000)) = true) by (vm_compute; reflexivity).
  rewrite forallb_forall in Hall.
  specialize (Hall (N.to_nat (n - 1000))).
  rewrite N2Nat.id in Hall.
  replace (1000 + (n - 1000))%N with n in Hall by lia.
  apply Nat.eqb_eq, Hall, in_seq. lia.
Qed.

(** ** The file name *)

(** C7, as the code has it. The file name is
    [<class name>/<timestamp>/<segment>], where the segment is
    [<timestamp>-<number>.<extension>] after trimming the white space at
    its two ends, then replacing spaces by underscores, then removing
    every character outside [[A-Za-z0-9._-]]; the number has four
    digits; the timestamp, made of digits and hyphens, comes through
    unchanged, so that the segment is the timestamp, a hyphen, the
    number, a dot and the extension trimmed on its right and sanitised. *)
Theorem generate_image_filename_shape (draw : N) (instance : ModelInstance) (filename : string) :
  let stamp := strftime (created_at instance) "%Y-%m-%d-%H-%M-%S-%F" in
  let extension := PyStr.last_item (PyStr.split "." filename) in
  let number := PyStr.of_N (random_randint 1000 9999 draw) in
  let segment :=
    sanitize_as_specified (PyStr.strip (stamp +:+ "-" +:+ number +:+ "." +:+ extension)) in
  generate_image_filename draw instance filename
    = class_name instance +:+ "/" +:+ stamp +:+ "/" +:+ segment /\
  segment
    = stamp +:+ "-" +:+ number +:+ "." +:+ sanitize_as_specified (PyStr.rstrip extension) /\
  String.length number = 4%nat /\
  PyStr.all_chars is_digit number = true /\
  PyStr.all_chars PyStr.in_class segment = true.
Proof.
  intros stamp extension number segment.
  assert (Hstamp : PyStr.all_chars is_stamp_char stamp = true) by apply timestamp_stamp.
  assert (Hnumber : PyStr.all_chars is_stamp_char number = true)
    by exact (all_chars_impl _ _ _ digit_is_stamp_char (of_N_digits _)).
  split; [reflexivity|].
  split.
  { unfold segment. rewrite strip_stamped_name, (lstrip_stamp _ Hstamp).
    rewrite !sanitize_append.
    rewrite (sanitize_stamp _ Hstamp), (sanitize_stamp _ Hnumber). reflexivity. }
  split; [apply four_digits, randint_range; lia|].
  split; [apply of_N_digits|].
  apply re_sub_in_class.
Qed.

(** The scenario of the specification: [My Photo #1.JPG] for a [Post]
    created on 2024-01-02 at 03:04:05, with the draw that gives 1234. *)
Example generate_image_filename_scenario :
  generate_image_filename 234 post_2024 "My Photo #1.JPG"
  = "Post/2024-01-02-03-04-05-2024-01-02/2024-01-02-03-04-05-2024-01-02-1234.JPG".
Proof. reflexivity. Qed.

(** C7, as stated, fails on a file name that ends with a space: the code
    trims the space, while replacing spaces first turns it into an
    underscore. *)
Lemma trailing_space_is_trimmed :
  generate_image_filename 234 post_2024 "photo.jpg "
    = "Post/2024-01-02-03-04-05-2024-01-02/2024-01-02-03-04-05-2024-01-02-1234.jpg" /\
  filename_as_specified 234 post_2024 "photo.jpg "
    = "Post/2024-01-02-03-04-05-2024-01-02/2024-01-02-03-04-05-2024-01-02-1234.jpg_" /\
  generate_image_filename 234 post_2024 "photo.jpg "
    <> filename_as_specified 234 post_2024 "photo.jpg ".
Proof. repeat split; vm_compute; (reflexivity || discriminate). Qed.

(** ** The image converter leaves at its first image *)

Lemma rename_iteration_no_return (image : nat) (e : string) (w : World) (v : Value) :
  fst (S3Minio.rename_iteration image e w) <> Ok (Return v).
Proof.
  unfold S3Minio.rename_iteration, try_except, bind, except, raise_from, raise, ret,
    get_name, set_name.
  repeat (case_match; simplify_eq/=); congruence.
Qed.

Lemma rename_loop_no_return (image : nat) (exts : list string) (w : World) (v : Value) :
  fst (for_in exts (S3Minio.rename_iteration image) w) <> Ok (Return v).
Proof.
  revert w. induction exts as [|e exts IH]; intros w; simpl; [discriminate|].
  unfold bind.
  pose proof (rename_iteration_no_return image e w) as Hno.
  destruct (S3Minio.rename_iteration image e w) as [[c|err] w1]; simpl in *;
    [|discriminate].
  destruct c; [apply IH|discriminate|exfalso; exact (Hno v0 eq_refl)].
Qed.

Lemma webp_iteration_exits (image : nat) (w : World) :
  fst (S3Minio.webp_iteration image w) <> Ok Normal.
Proof.
  unfold S3Minio.webp_iteration, try_except, bind, then_, except, raise_from, raise, ret,
    Image_open, Image_convert, Image_save.
  destruct (heap w !! image) as [f|]; [destruct (picture f) as [p|]|];
    try (simpl; repeat (case_match; simplify_eq/=); congruence).
  cbv beta iota delta [bind ret].
  match goal with
  | |- context [for_in ?l ?b ?w0] => destruct (for_in l b w0) as [[c|err] w1]
  end;
    [destruct c; simpl; congruence
    |simpl; repeat (case_match; simplify_eq/=); congruence].
Qed.

(** Whatever the first image leads to, [webp_converter] does for a longer
    sequence what it does for the first image alone. *)
Lemma webp_converter_stops_after_first
    (self : S3Minio.t) (image : nat) (rest : list nat) (w : World) :
  S3Minio.webp_converter self (image :: rest) w = S3Minio.webp_converter self [image] w.
Proof.
  unfold S3Minio.webp_converter, def_body, bind.
  destruct (try_except _ _ w) as [[[]|e] w1]; [|reflexivity].
  rewrite (for_in_exits _ image rest w1) by apply webp_iteration_exits.
  reflexivity.
Qed.

(** C8 at two images: the call returns the WEBP encoding, at quality 75
    and in mode RGB, of the first image and renames the first image; the
    second image is neither converted nor renamed. *)
Theorem webp_converter_converts_only_first_image :
  let result := S3Minio.webp_converter gateway [1%nat; 2%nat] quiet_world in
  fst result
    = Ok (VContentFile {| enc_format := "WEBP"; enc_quality := 75;
                          enc_picture := {| pic_mode := "RGB"; pic_raster := "raster a" |} |}) /\
  name <$> heap (snd result) !! 1%nat = Some "a.webp" /\
  heap (snd result) !! 2%nat = heap quiet_world !! 2%nat /\
  name <$> heap (snd result) !! 2%nat = Some "b.png".
Proof. repeat split; vm_compute; reflexivity. Qed.


(** * Further properties *)

(** ** Calls as single iterations *)

(** A call of [upload] with at least one key is the first iteration. *)
Lemma upload_cons (self : S3Minio.t) (k : string) (rest : list string) (w : World) :
  S3Minio.upload self (k :: rest) w
  = (outcome_of_iteration (fst (S3Minio.upload_iteration self k w)),
     snd (S3Minio.upload_iteration self k w)).
Proof.
  rewrite upload_stops_after_first.
  unfold S3Minio.upload, def_body. simpl. unfold bind, ret.
  destruct (S3Minio.upload_iteration self k w) as [[c|e] w1]; [|reflexivity].
  destruct c; reflexivity.
Qed.

Lemma delete_cons (self : S3Minio.t) (k : string) (rest : list string) (w : World) :
  S3Minio.delete self (k :: rest) w
  = (outcome_of_iteration (fst (S3Minio.delete_iteration self k w)),
     snd (S3Minio.delete_iteration self k w)).
Proof.
  rewrite delete_stops_after_first.
  unfold S3Minio.delete, def_body. simpl. unfold bind, ret.
  destruct (S3Minio.delete_iteration self k w) as [[c|e] w1]; [|reflexivity].
  destruct c; reflexivity.
Qed.

(** ** Text, continued *)



(** ** Construction *)



(** ** Upload: what a call leaves behind *)

(** The environment's part of the world is not the gateway's to change. *)
Lemma upload_iteration_frame (self : S3Minio.t) (k : string) (w : World) :
  let w' := snd (S3Minio.upload_iteration self k w) in
  s3_fault w' = s3_fault w /\ os_fault w' = os_fault w /\
  heap w' = heap w /\ django_installed w' = django_installed w.
Proof.
  unfold S3Minio.upload_iteration, try_except, bind, except, raise_from, raise, ret,
    print, os_path_exists, upload_file, s3_request, os_remove, os_listdir,
    shutil_rmtree, os_call.
  simpl. repeat (case_match; simplify_eq/=); repeat split.
Qed.

(** X2. A call of [upload] with at least one key makes exactly one
    request through the client, whatever the outcome: the upload of the
    first key's staging file under that key. *)
Theorem upload_makes_one_request
    (self : S3Minio.t) (k : string) (rest : list string) (w : World) :
  s3_log (snd (S3Minio.upload self (k :: rest) w))
  = (s3_log w ++ [UploadFile (staging k) (S3Minio.s3_bucket_name self) k])%list.
Proof.
  rewrite upload_cons. cbn [snd].
  unfold S3Minio.upload_iteration, try_except, bind, except, raise_from, raise, ret,
    print, os_path_exists, upload_file, s3_request, os_remove, os_listdir,
    shutil_rmtree, os_call.
  fold (staging k). simpl. repeat (case_match; simplify_eq/=); reflexivity.
Qed.

(** X3. When the transfer itself fails, [upload] raises and changes
    neither the local files nor the bucket: the staging file is still
    there. *)
Theorem failed_transfer_changes_nothing
    (self : S3Minio.t) (k : string) (rest : list string) (w : World) (e : Exc) :
  fst (upload_file (S3Minio.s3 self) (staging k) (S3Minio.s3_bucket_name self) k w)
    = Raised e ->
  let result := S3Minio.upload self (k :: rest) w in
  (exists err, fst result = Raised err) /\
  fs (snd result) = fs w /\
  objects (snd result) = objects w.
Proof.
  rewrite upload_cons. cbn [fst snd].
  unfold S3Minio.upload_iteration, try_except, bind, except, raise_from, raise, ret,
    print, os_path_exists, upload_file, s3_request.
  fold (staging k). simpl. intros Hraise.
  repeat (case_match; simplify_eq/=); repeat split; eauto.
Qed.

Lemma failed_transfer_changes_nothing_witness :
  let w := failing_backend connection_error quiet_world in
  let result := S3Minio.upload gateway ["a.png"; "b.png"] w in
  fst (upload_file (S3Minio.s3 gateway) (staging "a.png") "media" "a.png" w)
    = Raised connection_error /\
  (exists err, fst result = Raised err) /\
  fs (snd result) = fs w /\
  objects (snd result) = objects w.
Proof.
  intros w result. split; [reflexivity|].
  exact (failed_transfer_changes_nothing gateway "a.png" ["b.png"] w connection_error eq_refl).
Defined.

(** Without a staging file the transfer raises [FileNotFoundError],
    which [upload] wraps twice; nothing is changed. *)
Lemma upload_raises_without_file (self : S3Minio.t) (k : string) (rest : list string) (w : World) :
  fs w !! staging k = None ->
  s3_fault w (UploadFile (staging k) (S3Minio.s3_bucket_name self) k) = None ->
  exists err mid root w',
    S3Minio.upload self (k :: rest) w = (Raised err, w') /\
    is_upload_error err /\ exc_cause err = Some mid /\
    is_upload_error mid /\ exc_cause mid = Some root /\
    exc_class root = FileNotFoundError /\
    objects w' = objects w /\ fs w' = fs w.
Proof.
  intros Hmissing Hanswers. rewrite upload_cons.
  unfold S3Minio.upload_iteration, try_except, bind, except, raise_from, raise, ret,
    print, os_path_exists, upload_file, s3_request.
  fold (staging k). simpl. rewrite ?Hmissing, ?Hanswers. simpl. rewrite ?Hmissing. simpl.
  do 4 eexists. split; [reflexivity|].
  unfold is_upload_error. simpl. repeat split; try reflexivity; apply prefix_nil.
Qed.

(** X4. Without a staging file for the first key, [upload] raises an
    upload error whose chain of causes ends in the [FileNotFoundError] of
    the transfer, and the bucket and the local files are as they were. *)
Theorem upload_without_staging_file
    (self : S3Minio.t) (k : string) (rest : list string) (w : World) :
  fs w !! staging k = None ->
  s3_fault w (UploadFile (staging k) (S3Minio.s3_bucket_name self) k) = None ->
  exists err mid root w',
    S3Minio.upload self (k :: rest) w = (Raised err, w') /\
    is_upload_error err /\ exc_cause err = Some mid /\
    is_upload_error mid /\ exc_cause mid = Some root /\
    exc_class root = FileNotFoundError /\
    objects w' = objects w /\ fs w' = fs w.
Proof. exact (upload_raises_without_file self k rest w). Qed.

Lemma upload_without_staging_file_witness :
  fs quiet_world !! staging "zz.png" = None /\
  s3_fault quiet_world (UploadFile (staging "zz.png") "media" "zz.png") = None /\
  exists err mid root w',
    S3Minio.upload gateway ["zz.png"; "a.png"] quiet_world = (Raised err, w') /\
    is_upload_error err /\ exc_cause err = Some mid /\
    is_upload_error mid /\ exc_cause mid = Some root /\
    exc_class root = FileNotFoundError /\
    objects w' = objects quiet_world /\ fs w' = fs quiet_world.
Proof.
  assert (Hmissing : fs quiet_world !! staging "zz.png" = None) by (vm_compute; reflexivity).
  split; [exact Hmissing|]. split; [reflexivity|].
  exact (upload_without_staging_file gateway "zz.png" ["a.png"] quiet_world Hmissing eq_refl).
Defined.

(** X5. The transfer and the clean-up are not one step: when [os.remove]
    fails after the transfer, [upload] raises an upload error whose cause
    is the exception of [os.remove] itself, the object is in the bucket,
    and the staging file is still there. *)
Theorem failed_cleanup_after_transfer
    (self : S3Minio.t) (k body : string) (rest : list string) (w : World) (e : Exc) :
  fs w !! staging k = Some (File body) ->
  s3_fault w (UploadFile (staging k) (S3Minio.s3_bucket_name self) k) = None ->
  os_fault w (OsRemove (staging k)) = Some e ->
  isinstance e Exception = true ->
  exists err w',
    S3Minio.upload self (k :: rest) w = (Raised err, w') /\
    is_upload_error err /\ exc_cause err = Some e /\
    objects w' !! (S3Minio.s3_bucket_name self, k) = Some body /\
    fs w' !! staging k = Some (File body).
Proof.
  intros Hfile Hanswers Hremove Hexc. rewrite upload_cons.
  unfold S3Minio.upload_iteration, try_except, bind, except, raise_from, raise, ret,
    print, os_path_exists, upload_file, s3_request, os_remove, os_call.
  fold (staging k). simpl. rewrite Hfile, Hanswers. simpl. rewrite Hfile, Hremove. simpl.
  rewrite Hexc. simpl.
  do 2 eexists. split; [reflexivity|].
  unfold is_upload_error. simpl.
  repeat split; try reflexivity; try apply prefix_nil; try exact Hfile.
  apply lookup_insert_eq.
Qed.

Lemma failed_cleanup_after_transfer_witness :
  let w := failing_os permission_error quiet_world in
  fs w !! staging "a.png" = Some (File "bytes of a") /\
  os_fault w (OsRemove (staging "a.png")) = Some permission_error /\
  exists err w',
    S3Minio.upload gateway ["a.png"] w = (Raised err, w') /\
    is_upload_error err /\ exc_cause err = Some permission_error /\
    objects w' !! ("media", "a.png") = Some "bytes of a" /\
    fs w' !! staging "a.png" = Some (File "bytes of a").
Proof.
  intros w.
  assert (Hfile : fs w !! staging "a.png" = Some (File "bytes of a"))
    by (vm_compute; reflexivity).
  split; [exact Hfile|]. split; [reflexivity|].
  exact (failed_cleanup_after_transfer gateway "a.png" "bytes of a" [] w permission_error
           Hfile eq_refl eq_refl eq_refl).
Defined.


Lemma children_not_empty (d p : string) (node : Node) (m : gmap string Node) :
  m !! p = Some node -> PyStr.dirname p = d -> p <> d -> children d m <> [].
Proof.
  intros Hp Hdir Hne Hempty.
  assert (Hin : p ∈ children d m).
  { unfold children. apply list_elem_of_filter. split; [split; assumption|].
    apply list_elem_of_In, in_map_iff. exists (p, node). split; [reflexivity|].
    apply list_elem_of_In, elem_of_map_to_list. exact Hp. }
  rewrite Hempty in Hin. inversion Hin.
Qed.

(** X6. When the staging directory holds another entry, a successful
    [upload] removes the staging file of the first key and nothing else:
    the directory and its other entries stay. *)
Theorem upload_keeps_a_directory_in_use
    (self : S3Minio.t) (k body p : string) (node : Node) (rest : list string) (w : World) :
  valid_staging_file w k body -> no_faults w ->
  fs w !! p = Some node ->
  p <> staging k ->
  PyStr.dirname p = PyStr.dirname (staging k) ->
  p <> PyStr.dirname (staging k) ->
  exists w',
    S3Minio.upload self (k :: rest) w = (Ok (VBool true), w') /\
    fs w' = delete (staging k) (fs w) /\
    fs w' !! p = Some node /\
    fs w' !! PyStr.dirname (staging k) = Some Dir.
Proof.
  intros Hvalid Hquiet Hp Hother Hsame Hnotdir.
  destruct (upload_iteration_succeeds self k body w Hvalid Hquiet) as [w' E].
  exists w'. rewrite upload_cons, E. split; [reflexivity|].
  apply upload_iteration_Ok in E as [_ (_ & _ & Hfs & _)].
  destruct Hvalid as [Hfile Hdir].
  assert (Hdir1 : delete (staging k) (fs w) !! PyStr.dirname (staging k) = Some Dir).
  { rewrite lookup_delete_ne; [exact Hdir|]. intros Heq. rewrite Heq in Hfile. congruence. }
  assert (Hp1 : delete (staging k) (fs w) !! p = Some node)
    by (rewrite lookup_delete_ne; [exact Hp|congruence]).
  assert (Hkept : fs w' = delete (staging k) (fs w)).
  { rewrite Hfs. unfold cleaned_up. rewrite Hdir1.
    pose proof (children_not_empty _ p node _ Hp1 Hsame Hnotdir) as Hne.
    destruct (children _ _); [congruence|reflexivity]. }
  rewrite Hkept. repeat split; assumption.
Qed.

Lemma upload_keeps_a_directory_in_use_witness :
  valid_staging_file quiet_world "a.png" "bytes of a" /\
  no_faults quiet_world /\
  fs quiet_world !! "temp/media/b.png" = Some (File "bytes of b") /\
  exists w',
    S3Minio.upload gateway ["a.png"] quiet_world = (Ok (VBool true), w') /\
    fs w' = delete (staging "a.png") (fs quiet_world) /\
    fs w' !! "temp/media/b.png" = Some (File "bytes of b") /\
    fs w' !! PyStr.dirname (staging "a.png") = Some Dir.
Proof.
  assert (Hvalid : valid_staging_file quiet_world "a.png" "bytes of a")
    by (split; vm_compute; reflexivity).
  assert (Hquiet : no_faults quiet_world) by (split; intros c; reflexivity).
  assert (Hp : fs quiet_world !! "temp/media/b.png" = Some (File "bytes of b"))
    by (vm_compute; reflexivity).
  split; [exact Hvalid|]. split; [exact Hquiet|]. split; [exact Hp|].
  apply (upload_keeps_a_directory_in_use gateway "a.png" "bytes of a" "temp/media/b.png"
           (File "bytes of b") [] quiet_world Hvalid Hquiet Hp);
    [discriminate|reflexivity|discriminate].
Defined.

(** ** What is not an [Exception] is not wrapped *)

(** X7. An exception of the client that is not an instance of
    [Exception], such as [KeyboardInterrupt], leaves [upload] and [delete]
    as it is: it is neither wrapped nor swallowed. *)
Theorem non_exceptions_pass_through
    (self : S3Minio.t) (k : string) (rest : list string) (w : World) (e : Exc) :
  isinstance e Exception = false ->
  (fst (upload_file (S3Minio.s3 self) (staging k) (S3Minio.s3_bucket_name self) k w)
     = Raised e ->
   fst (S3Minio.upload self (k :: rest) w) = Raised e) /\
  (fst (delete_object (S3Minio.s3 self) (S3Minio.s3_bucket_name self) k w) = Raised e ->
   fst (S3Minio.delete self (k :: rest) w) = Raised e).
Proof.
  intros Hnot. split.
  - rewrite upload_cons. cbn [fst].
    unfold S3Minio.upload_iteration, try_except, bind, except, raise_from, raise, ret,
      print, os_path_exists, upload_file, s3_request.
    fold (staging k). simpl. intros Hraise.
    repeat (case_match; simplify_eq/=); reflexivity.
  - rewrite delete_cons. cbn [fst].
    unfold S3Minio.delete_iteration, try_except, bind, except, raise_from, raise, ret,
      delete_object, s3_request.
    simpl. intros Hraise.
    repeat (case_match; simplify_eq/=); reflexivity.
Qed.

Lemma non_exceptions_pass_through_witness :
  let interrupt := new_exc KeyboardInterrupt "" in
  let w := failing_backend interrupt quiet_world in
  isinstance interrupt Exception = false /\
  fst (S3Minio.upload gateway ["a.png"] w) = Raised interrupt /\
  fst (S3Minio.delete gateway ["a.png"] w) = Raised interrupt.
Proof.
  intros interrupt w.
  destruct (non_exceptions_pass_through gateway "a.png" [] w interrupt eq_refl)
    as [Hup Hdel].
  split; [reflexivity|]. split; [exact (Hup eq_refl)|exact (Hdel eq_refl)].
Defined.

(** ** Delete: what a call leaves behind *)

(** X8. A call of [delete] with at least one key makes exactly one
    request, the deletion of the first key, whatever the outcome, and it
    neither probes the bucket, nor touches a local file, nor prints. *)
Theorem delete_makes_one_request
    (self : S3Minio.t) (k : string) (rest : list string) (w : World) :
  let w' := snd (S3Minio.delete self (k :: rest) w) in
  s3_log w' = (s3_log w ++ [DeleteObject (S3Minio.s3_bucket_name self) k])%list /\
  fs w' = fs w /\ stdout w' = stdout w /\ heap w' = heap w /\
  s3_fault w' = s3_fault w.
Proof.
  rewrite delete_cons. cbn [snd].
  unfold S3Minio.delete_iteration, try_except, bind, except, raise_from, raise, ret,
    delete_object, s3_request.
  simpl. repeat (case_match; simplify_eq/=); repeat split.
Qed.


(** ** Presigned URLs: what a call leaves behind *)

(** X9. [get_url] only reads: whatever the outcome, the bucket, the local
    files, the output and the file objects are as they were; and the first
    request it makes is the existence probe. *)
Theorem get_url_only_reads (self : S3Minio.t) (key : string) (w : World) :
  let w' := snd (S3Minio.get_url self key w) in
  objects w' = objects w /\ fs w' = fs w /\ stdout w' = stdout w /\ heap w' = heap w /\
  exists more,
    s3_log w' = (s3_log w ++ HeadObject (S3Minio.s3_bucket_name self) key :: more)%list.
Proof.
  unfold S3Minio.get_url, def_body, try_except, bind, except, head_object,
    generate_presigned_url, s3_request, ret.
  simpl. repeat (case_match; simplify_eq/=); repeat split;
    try (exists []; reflexivity);
    try (eexists; rewrite <- app_assoc; reflexivity).
Qed.

(** X10. No URL is generated for an object that the probe did not find:
    when the probe raises, the probe is the only request of the call. *)
Theorem no_presign_after_failed_probe (self : S3Minio.t) (key : string) (w : World) (e : Exc) :
  fst (head_object (S3Minio.s3 self) (S3Minio.s3_bucket_name self) key w) = Raised e ->
  s3_log (snd (S3Minio.get_url self key w))
  = (s3_log w ++ [HeadObject (S3Minio.s3_bucket_name self) key])%list.
Proof.
  unfold S3Minio.get_url, def_body, try_except, bind, ret, except, head_object, s3_request.
  simpl. intros Hprobe.
  repeat (case_match; simplify_eq/=); reflexivity.
Qed.

Lemma no_presign_after_failed_probe_witness :
  fst (head_object (S3Minio.s3 gateway) "media" "new.png" quiet_world)
    = Raised (client_error "404" "HeadObject" "Not Found") /\
  s3_log (snd (S3Minio.get_url gateway "new.png" quiet_world))
    = [HeadObject "media" "new.png"].
Proof.
  split; [vm_compute; reflexivity|].
  exact (no_presign_after_failed_probe gateway "new.png" quiet_world _
           ltac:(vm_compute; reflexivity)).
Defined.

(** X11. The [try] block of [get_url] covers the generation of the URL
    too: when the object is stored and the probe succeeds but
    [generate_presigned_url] raises [e], the call returns [None] if [e] is a
    [ClientError] and raises [e] itself otherwise. *)
Theorem get_url_when_presigning_fails (self : S3Minio.t) (key body : string) (w : World) (e : Exc) :
  let bucket := S3Minio.s3_bucket_name self in
  objects w !! (bucket, key) = Some body ->
  s3_fault w (HeadObject bucket key) = None ->
  s3_fault w (GeneratePresignedUrl "get_object" bucket key 3600) = Some e ->
  fst (S3Minio.get_url self key w)
  = if isinstance e ClientError then Ok VNone else Raised e.
Proof.
  intros bucket Hstored Hprobe Hpresign.
  unfold S3Minio.get_url, def_body, try_except, bind, ret, except, head_object,
    generate_presigned_url, s3_request.
  simpl. fold bucket. rewrite Hprobe. simpl. rewrite Hstored. simpl.
  rewrite Hpresign. simpl.
  destruct (isinstance e ClientError); reflexivity.
Qed.

Lemma get_url_when_presigning_fails_witness :
  let w := failing_presigner access_denied quiet_world in
  objects w !! ("media", "old.png") = Some "bytes of old" /\
  s3_fault w (HeadObject "media" "old.png") = None /\
  s3_fault w (GeneratePresignedUrl "get_object" "media" "old.png" 3600) = Some access_denied /\
  fst (S3Minio.get_url gateway "old.png" w) = Ok VNone.
Proof.
  intros w.
  assert (Hstored : objects w !! ("media", "old.png") = Some "bytes of old")
    by (vm_compute; reflexivity).
  split; [exact Hstored|]. split; [reflexivity|]. split; [reflexivity|].
  exact (get_url_when_presigning_fails gateway "old.png" "bytes of old" w access_denied
           Hstored eq_refl eq_refl).
Defined.

(** ** Calls in sequence *)

(** X12. What [upload] stored, [get_url] finds: after a successful upload
    of a key, with a backend that answers, [get_url] of that key returns
    the URL of the key and not [None]. *)
Theorem upload_then_get_url
    (self : S3Minio.t) (k body : string) (rest : list string) (w : World) :
  valid_staging_file w k body -> no_faults w ->
  exists w1 w2,
    S3Minio.upload self (k :: rest) w = (Ok (VBool true), w1) /\
    S3Minio.get_url self k w1
      = (Ok (VStr (presigned_url_text (S3Minio.s3 self) (S3Minio.s3_bucket_name self) k 3600)),
         w2).
Proof.
  intros Hvalid Hquiet.
  destruct (upload_iteration_succeeds self k body w Hvalid Hquiet) as [w1 E].
  pose proof (upload_iteration_frame self k w) as (Hfault & _).
  rewrite E in Hfault. cbn [snd] in Hfault.
  exists w1. rewrite upload_cons, E.
  apply upload_iteration_Ok in E as [_ (body' & _ & _ & Hobj & _)].
  assert (Hstored : is_Some (objects w1 !! (S3Minio.s3_bucket_name self, k)))
    by (rewrite Hobj, lookup_insert_eq; eauto).
  destruct Hstored as [stored Hstored].
  assert (Hanswers : forall c, s3_fault w1 c = None)
    by (intros c; rewrite Hfault; apply Hquiet).
  unfold S3Minio.get_url, def_body, try_except, bind, ret, head_object,
    generate_presigned_url, s3_request.
  simpl. rewrite !Hanswers. simpl. rewrite Hstored. simpl. rewrite Hanswers. simpl.
  eexists. split; reflexivity.
Qed.

Lemma upload_then_get_url_witness :
  valid_staging_file quiet_world "a.png" "bytes of a" /\
  no_faults quiet_world /\
  exists w1 w2,
    S3Minio.upload gateway ["a.png"] quiet_world = (Ok (VBool true), w1) /\
    S3Minio.get_url gateway "a.png" w1
      = (Ok (VStr "http://minio:9000/media/a.png?X-Amz-Expires=3600"), w2).
Proof.
  assert (Hvalid : valid_staging_file quiet_world "a.png" "bytes of a")
    by (split; vm_compute; reflexivity).
  assert (Hquiet : no_faults quiet_world) by (split; intros c; reflexivity).
  split; [exact Hvalid|]. split; [exact Hquiet|].
  exact (upload_then_get_url gateway "a.png" "bytes of a" [] quiet_world Hvalid Hquiet).
Defined.

(** X13. What [delete] removed, [get_url] no longer finds: after a
    successful deletion of a key, with a backend that answers, [get_url]
    of that key returns [None], whether the key was stored or not. *)
Theorem delete_then_get_url
    (self : S3Minio.t) (k : string) (rest : list string) (w : World) :
  (forall c, s3_fault w c = None) ->
  exists w1 w2,
    S3Minio.delete self (k :: rest) w = (Ok (VBool true), w1) /\
    S3Minio.get_url self k w1 = (Ok VNone, w2).
Proof.
  intros Hanswers. rewrite delete_cons.
  unfold S3Minio.delete_iteration, S3Minio.get_url, def_body, try_except, bind, ret,
    except, delete_object, head_object, s3_request.
  simpl. rewrite !Hanswers. simpl.
  eexists. eexists. split; [reflexivity|].
  simpl. rewrite !Hanswers. simpl. rewrite lookup_delete_eq. simpl. reflexivity.
Qed.

Lemma delete_then_get_url_witness :
  (forall c, s3_fault quiet_world c = None) /\
  exists w1 w2,
    S3Minio.delete gateway ["old.png"] quiet_world = (Ok (VBool true), w1) /\
    S3Minio.get_url gateway "old.png" w1 = (Ok VNone, w2).
Proof.
  assert (Hanswers : forall c, s3_fault quiet_world c = None) by (intros c; reflexivity).
  split; [exact Hanswers|].
  exact (delete_then_get_url gateway "old.png" [] quiet_world Hanswers).
Defined.

(** X14. Uploading a key that the bucket did not hold and then deleting
    it gives the bucket back as it was; the staging file stays removed. *)
Theorem upload_then_delete
    (self : S3Minio.t) (k body : string) (rest rest' : list string) (w : World) :
  valid_staging_file w k body -> no_faults w ->
  objects w !! (S3Minio.s3_bucket_name self, k) = None ->
  exists w1 w2,
    S3Minio.upload self (k :: rest) w = (Ok (VBool true), w1) /\
    S3Minio.delete self (k :: rest') w1 = (Ok (VBool true), w2) /\
    objects w2 = objects w /\
    fs w2 !! staging k = None.
Proof.
  intros Hvalid Hquiet Hnew.
  destruct (upload_iteration_succeeds self k body w Hvalid Hquiet) as [w1 E].
  pose proof (upload_iteration_frame self k w) as (Hfault & _).
  rewrite E in Hfault. cbn [snd] in Hfault.
  exists w1. rewrite upload_cons, E.
  apply upload_iteration_Ok in E as [_ (body' & _ & Hfs & Hobj & _)].
  rewrite delete_cons.
  unfold S3Minio.delete_iteration, try_except, bind, ret, delete_object, s3_request.
  simpl. rewrite Hfault. destruct Hquiet as [Hs3 _]. rewrite Hs3. simpl.
  eexists. split; [reflexivity|]. split; [reflexivity|]. simpl.
  split; [rewrite Hobj; apply delete_insert_id; exact Hnew|].
  rewrite Hfs. apply cleaned_up_staging.
Qed.

Lemma upload_then_delete_witness :
  valid_staging_file quiet_world "a.png" "bytes of a" /\
  no_faults quiet_world /\
  objects quiet_world !! ("media", "a.png") = None /\
  exists w1 w2,
    S3Minio.upload gateway ["a.png"] quiet_world = (Ok (VBool true), w1) /\
    S3Minio.delete gateway ["a.png"] w1 = (Ok (VBool true), w2) /\
    objects w2 = objects quiet_world /\
    fs w2 !! staging "a.png" = None.
Proof.
  assert (Hvalid : valid_staging_file quiet_world "a.png" "bytes of a")
    by (split; vm_compute; reflexivity).
  assert (Hquiet : no_faults quiet_world) by (split; intros c; reflexivity).
  assert (Hnew : objects quiet_world !! ("media", "a.png") = None)
    by (vm_compute; reflexivity).
  split; [exact Hvalid|]. split; [exact Hquiet|]. split; [exact Hnew|].
  exact (upload_then_delete gateway "a.png" "bytes of a" [] [] quiet_world
           Hvalid Hquiet Hnew).
Defined.


(** ** The image converter on its first image *)

(** The renaming loop ends normally, renames the file object as
    [renamed_with] says and changes nothing else. *)
Lemma rename_loop_renames (image : nat) (f : FileObj) (exts : list string) (w : World) :
  heap w !! image = Some f ->
  exists w',
    for_in exts (S3Minio.rename_iteration image) w = (Ok Normal, w') /\
    heap w' !! image = Some {| name := renamed_with exts (name f); picture := picture f |} /\
    (forall j, j <> image -> heap w' !! j = heap w !! j) /\
    fs w' = fs w /\ objects w' = objects w /\ s3_log w' = s3_log w /\
    stdout w' = stdout w.
Proof.
  intros Hf. induction exts as [|e exts IH].
  - exists w. simpl. destruct f. repeat split; assumption.
  - simpl. unfold bind.
    unfold S3Minio.rename_iteration at 1.
    unfold try_except, bind, get_name, set_name, ret. rewrite Hf.
    destruct (PyStr.contains e (name f)) eqn:Hin; simpl; rewrite ?Hf; simpl;
      rewrite ?Hf; simpl.
    + eexists. split; [reflexivity|]. simpl.
      split; [apply lookup_insert_eq|].
      split; [intros j Hj; apply lookup_insert_ne; congruence|].
      repeat split.
    + exact IH.
Qed.

(** X15. With Django installed, [webp_converter] on a sequence that
    starts with a readable image returns that image encoded as WEBP at
    quality 75 in mode RGB, renames that file object by replacing the
    first known extension its name contains, wherever it occurs, and
    leaves every other file object, the local files and the bucket as
    they were, without any request through the client. *)
Theorem webp_converter_first_image
    (self : S3Minio.t) (image : nat) (rest : list nat) (f : FileObj) (p : Picture) (w : World) :
  django_installed w = true ->
  heap w !! image = Some f ->
  picture f = Some p ->
  exists w',
    S3Minio.webp_converter self (image :: rest) w = (Ok (webp_of p), w') /\
    heap w' !! image
      = Some {| name := renamed_with known_extensions (name f); picture := Some p |} /\
    (forall j, j <> image -> heap w' !! j = heap w !! j) /\
    fs w' = fs w /\ objects w' = objects w /\ s3_log w' = s3_log w.
Proof.
  intros Hdjango Hf Hp.
  rewrite webp_converter_stops_after_first.
  destruct (rename_loop_renames image f known_extensions w Hf)
    as (w' & Hloop & Hname & Hothers & Hfs & Hobj & Hlog & _).
  exists w'.
  split.
  - unfold S3Minio.webp_converter, def_body, try_except, bind, import_ContentFile.
    rewrite Hdjango. cbn [for_in].
    unfold bind, S3Minio.webp_iteration, try_except, bind, then_, Image_open,
      Image_convert, Image_save, ret.
    rewrite Hf, Hp. unfold bind. fold known_extensions. rewrite Hloop. reflexivity.
  - rewrite Hname, Hp. repeat split; assumption.
Qed.

Lemma webp_converter_first_image_witness :
  django_installed quiet_world = true /\
  heap quiet_world !! 1%nat
    = Some {| name := "a.png";
              picture := Some {| pic_mode := "RGBA"; pic_raster := "raster a" |} |} /\
  exists w',
    S3Minio.webp_converter gateway [1%nat; 2%nat] quiet_world
      = (Ok (webp_of {| pic_mode := "RGBA"; pic_raster := "raster a" |}), w') /\
    heap w' !! 1%nat
      = Some {| name := "a.webp";
                picture := Some {| pic_mode := "RGBA"; pic_raster := "raster a" |} |} /\
    (forall j, j <> 1%nat -> heap w' !! j = heap quiet_world !! j).
Proof.
  assert (Hf : heap quiet_world !! 1%nat
               = Some {| name := "a.png";
                         picture := Some {| pic_mode := "RGBA"; pic_raster := "raster a" |} |})
    by (vm_compute; reflexivity).
  split; [reflexivity|]. split; [exact Hf|].
  destruct (webp_converter_first_image gateway 1%nat [2%nat] _ _ quiet_world
              eq_refl Hf eq_refl) as (w' & Hcall & Hname & Hothers & _).
  exists w'. split; [exact Hcall|]. split; [exact Hname|exact Hothers].
Defined.

Lemma renamed_with_absent (exts : list string) (n : string) :
  (forall e, In e exts -> PyStr.contains e n = false) -> renamed_with exts n = n.
Proof.
  induction exts as [|e exts IH]; intros Hnone; [reflexivity|].
  simpl. rewrite (Hnone e (or_introl eq_refl)).
  apply IH. intros e' He'. apply Hnone. right. exact He'.
Qed.

Lemma rename_loop_absent (image : nat) (f : FileObj) (exts : list string) (w : World) :
  heap w !! image = Some f ->
  (forall e, In e exts -> PyStr.contains e (name f) = false) ->
  for_in exts (S3Minio.rename_iteration image) w = (Ok Normal, w).
Proof.
  intros Hf. induction exts as [|e exts IH]; intros Hnone; [reflexivity|].
  simpl. unfold bind.
  unfold S3Minio.rename_iteration at 1.
  unfold try_except, bind, get_name, ret. rewrite Hf.
  rewrite (Hnone e (or_introl eq_refl)).
  apply IH. intros e' He'. apply Hnone. right. exact He'.
Qed.

(** X16. The search for an extension is by exact text: a readable image
    whose name contains none of [.jpg], [.jpeg], [.png], [.svg], [.gif] as
    written -- an upper-case [.JPG], say -- is converted all the same, and
    the world, the name included, is left as it was. *)
Theorem webp_converter_keeps_unknown_names
    (self : S3Minio.t) (image : nat) (rest : list nat) (f : FileObj) (p : Picture) (w : World) :
  django_installed w = true ->
  heap w !! image = Some f ->
  picture f = Some p ->
  (forall e, In e known_extensions -> PyStr.contains e (name f) = false) ->
  S3Minio.webp_converter self (image :: rest) w = (Ok (webp_of p), w).
Proof.
  intros Hdjango Hf Hp Hnone.
  rewrite webp_converter_stops_after_first.
  unfold S3Minio.webp_converter, def_body, try_except, bind, import_ContentFile.
  rewrite Hdjango. cbn [for_in].
  unfold bind, S3Minio.webp_iteration, try_except, bind, then_, Image_open,
    Image_convert, Image_save, ret.
  rewrite Hf, Hp. unfold bind. fold known_extensions.
  rewrite (rename_loop_absent image f known_extensions w Hf Hnone). reflexivity.
Qed.

Lemma webp_converter_keeps_unknown_names_witness :
  let picture_c := {| pic_mode := "L"; pic_raster := "raster c" |} in
  let file_c := {| name := "holiday.JPG"; picture := Some picture_c |} in
  let w := with_files {[ 3%nat := file_c ]} quiet_world in
  django_installed w = true /\
  heap w !! 3%nat = Some file_c /\
  (forall e, In e known_extensions -> PyStr.contains e "holiday.JPG" = false) /\
  S3Minio.webp_converter gateway [3%nat] w = (Ok (webp_of picture_c), w).
Proof.
  intros picture_c file_c w.
  assert (Hf : heap w !! 3%nat = Some file_c) by (vm_compute; reflexivity).
  assert (Hnone : forall e, In e known_extensions -> PyStr.contains e (name file_c) = false).
  { intros e He. simpl in He.
    repeat (destruct He as [<-|He]; [reflexivity|]). destruct He. }
  split; [reflexivity|]. split; [exact Hf|]. split; [exact Hnone|].
  exact (webp_converter_keeps_unknown_names gateway 3%nat [] file_c picture_c w
           eq_refl Hf eq_refl Hnone).
Defined.

(** X17. With Django installed, when the first file object cannot be
    opened as an image, [Image.open] raising [e], [webp_converter] raises
    a [ValueError] with the converter's message and [e] as its cause,
    before any renaming: the world is as it was. *)
Theorem webp_converter_unreadable_image
    (self : S3Minio.t) (image : nat) (rest : list nat) (w : World) (e : Exc) :
  django_installed w = true ->
  fst (Image_open image w) = Raised e ->
  S3Minio.webp_converter self (image :: rest) w
  = (Raised (with_cause
               (new_exc ValueError
                  "Converter Error (Exclusive to Django models) | pip install django")
               e),
     w).
Proof.
  intros Hdjango Hopen.
  rewrite webp_converter_stops_after_first.
  unfold S3Minio.webp_converter, def_body, try_except, bind, import_ContentFile.
  rewrite Hdjango. cbn [for_in].
  unfold bind, S3Minio.webp_iteration, try_except, bind, except, raise_from, raise.
  revert Hopen. unfold Image_open.
  destruct (heap w !! image) as [f|]; [destruct (picture f)|]; simpl;
    intros Hopen; simplify_eq; reflexivity.
Qed.

Lemma webp_converter_unreadable_image_witness :
  let unreadable := new_exc UnidentifiedImageError "cannot identify image file" in
  let w := with_files {[ 4%nat := {| name := "notes.png"; picture := None |} ]} quiet_world in
  django_installed w = true /\
  fst (Image_open 4%nat w) = Raised unreadable /\
  S3Minio.webp_converter gateway [4%nat; 1%nat] w
  = (Raised (with_cause
               (new_exc ValueError
                  "Converter Error (Exclusive to Django models) | pip install django")
               unreadable),
     w).
Proof.
  intros unreadable w.
  assert (Hopen : fst (Image_open 4%nat w) = Raised unreadable) by (vm_compute; reflexivity).
  split; [reflexivity|]. split; [exact Hopen|].
  exact (webp_converter_unreadable_image gateway 4%nat [1%nat] w unreadable
           eq_refl Hopen).
Defined.


(** ** The file name, continued *)

Lemma in_class_plain (c : ascii) :
  PyStr.in_class c = true -> PyStr.is_space c = false /\ Ascii.eqb c " " = false.
Proof.
  destruct c as [[] [] [] [] [] [] [] []]; vm_compute; intros H;
    first [discriminate H | split; reflexivity].
Qed.

Lemma rstrip_in_class (s : string) :
  PyStr.all_chars PyStr.in_class s = true -> PyStr.rstrip s = s.
Proof.
  induction s as [|c s IH]; [reflexivity|].
  intros H. cbn [PyStr.all_chars] in H. apply andb_true_iff in H as [Hc Hs].
  cbn [PyStr.rstrip]. rewrite (IH Hs).
  destruct s; [|reflexivity].
  destruct (in_class_plain c Hc) as [-> _]. reflexivity.
Qed.

Lemma lstrip_in_class (s : string) :
  PyStr.all_chars PyStr.in_class s = true -> PyStr.lstrip s = s.
Proof.
  destruct s as [|c s]; [reflexivity|].
  intros H. cbn [PyStr.all_chars] in H. apply andb_true_iff in H as [Hc _].
  cbn [PyStr.lstrip]. destruct (in_class_plain c Hc) as [-> _]. reflexivity.
Qed.

Lemma sanitize_in_class (s : string) :
  PyStr.all_chars PyStr.in_class s = true -> sanitize_as_specified s = s.
Proof.
  unfold sanitize_as_specified.
  induction s as [|c s IH]; [reflexivity|].
  intros H. cbn [PyStr.all_chars] in H. apply andb_true_iff in H as [Hc Hs].
  destruct (in_class_plain c Hc) as [_ Hnot].
  rewrite replace_space_cons, Hnot. cbn [PyStr.re_sub_outside_class].
  rewrite Hc, (IH Hs). reflexivity.
Qed.

(** X18. [get_valid_filename] yields only characters of
    [[A-Za-z0-9._-]], leaves a name made of such characters as it is, and
    so gives the same result when applied a second time. *)
Theorem get_valid_filename_idempotent (s : string) :
  PyStr.all_chars PyStr.in_class (get_valid_filename s) = true /\
  (PyStr.all_chars PyStr.in_class s = true -> get_valid_filename s = s) /\
  get_valid_filename (get_valid_filename s) = get_valid_filename s.
Proof.
  assert (Hfix : forall t, PyStr.all_chars PyStr.in_class t = true ->
                           get_valid_filename t = t).
  { intros t Ht. unfold get_valid_filename, PyStr.strip.
    rewrite (lstrip_in_class _ Ht), (rstrip_in_class _ Ht).
    exact (sanitize_in_class _ Ht). }
  assert (Hclass : PyStr.all_chars PyStr.in_class (get_valid_filename s) = true)
    by apply re_sub_in_class.
  split; [exact Hclass|]. split; [apply Hfix|apply Hfix, Hclass].
Qed.

Lemma get_valid_filename_idempotent_witness :
  PyStr.all_chars PyStr.in_class "a-b_c.png" = true /\
  get_valid_filename "a-b_c.png" = "a-b_c.png" /\
  get_valid_filename (get_valid_filename " a b#c .png ") = get_valid_filename " a b#c .png ".
Proof.
  destruct (get_valid_filename_idempotent "a-b_c.png") as (_ & Hfix & _).
  destruct (get_valid_filename_idempotent " a b#c .png ") as (_ & _ & Htwice).
  split; [reflexivity|]. split; [exact (Hfix eq_refl)|exact Htwice].
Defined.

Lemma split_not_nil (sep : ascii) (s : string) : PyStr.split sep s <> [].
Proof.
  destruct s as [|c s]; simpl; [discriminate|].
  destruct (Ascii.eqb c sep); [discriminate|].
  destruct (PyStr.split sep s); discriminate.
Qed.

(** Splitting a text that has a separator in it: the pieces before the
    separator, then those after it. *)
Lemma split_append (sep : ascii) (a b : string) :
  PyStr.split sep (a +:+ String sep b) = (PyStr.split sep a ++ PyStr.split sep b)%list.
Proof.
  induction a as [|c a IH].
  - simpl. rewrite Ascii.eqb_refl. reflexivity.
  - change (String c a +:+ String sep b) with (String c (a +:+ String sep b)).
    cbn [PyStr.split]. rewrite IH.
    destruct (Ascii.eqb c sep); [reflexivity|].
    pose proof (split_not_nil sep a) as Hne.
    destruct (PyStr.split sep a); [congruence|reflexivity].
Qed.

Lemma last_item_app (l1 l2 : list string) :
  l2 <> [] -> PyStr.last_item (l1 ++ l2) = PyStr.last_item l2.
Proof.
  intros Hne. unfold PyStr.last_item.
  induction l1 as [|x l1 IH]; [reflexivity|].
  simpl. rewrite IH. destruct (l1 ++ l2)%list eqn:E; [|reflexivity].
  apply app_eq_nil in E as [_ E]. congruence.
Qed.

Lemma split_without_separator (s : string) :
  PyStr.contains "." s = false -> PyStr.split "." s = [s].
Proof.
  induction s as [|c s IH]; [reflexivity|].
  cbn [PyStr.contains String.prefix]. intros H.
  apply orb_false_iff in H as [Hhead Htail].
  cbn [PyStr.split]. rewrite (IH Htail).
  destruct (Ascii.eqb_spec c ".") as [->|Hne]; [|reflexivity].
  simpl in Hhead. rewrite prefix_nil in Hhead. discriminate.
Qed.

(** The extension the helper takes from a file name with a dot. *)
Lemma extension_after_last_dot (stem ext : string) :
  PyStr.contains "." ext = false ->
  PyStr.last_item (PyStr.split "." (stem +:+ "." +:+ ext)) = ext.
Proof.
  intros Hext.
  change (stem +:+ "." +:+ ext) with (stem +:+ String "." ext).
  rewrite split_append, last_item_app by apply split_not_nil.
  rewrite (split_without_separator _ Hext). reflexivity.
Qed.

(** The segment that [get_valid_filename] makes of a timestamp, a number
    of the draw and an extension. *)
Lemma stamped_segment (draw : N) (dt : DateTime) (ext : string) :
  let stamp := strftime dt "%Y-%m-%d-%H-%M-%S-%F" in
  let number := PyStr.of_N (random_randint 1000 9999 draw) in
  get_valid_filename (stamp +:+ "-" +:+ number +:+ "." +:+ ext)
  = stamp +:+ "-" +:+ number +:+ "." +:+ sanitize_as_specified (PyStr.rstrip ext).
Proof.
  intros stamp number.
  assert (Hstamp : PyStr.all_chars is_stamp_char stamp = true) by apply timestamp_stamp.
  assert (Hnumber : PyStr.all_chars is_stamp_char number = true)
    by exact (all_chars_impl _ _ _ digit_is_stamp_char (of_N_digits _)).
  unfold get_valid_filename. fold (sanitize_as_specified (PyStr.strip
    (stamp +:+ "-" +:+ number +:+ "." +:+ ext))).
  rewrite strip_stamped_name, (lstrip_stamp _ Hstamp), !sanitize_append.
  rewrite (sanitize_stamp _ Hstamp), (sanitize_stamp _ Hnumber). reflexivity.
Qed.

(** X19. Of the original file name only the text after its last dot is
    kept: for a name [<stem>.<ext>] with no dot in [<ext>], the result is
    [<class>/<timestamp>/<timestamp>-<number>.<ext'>], where [<ext'>] is
    [<ext>] trimmed on its right and sanitised; the stem plays no part. *)
Theorem generate_image_filename_drops_the_stem
    (draw : N) (instance : ModelInstance) (stem ext : string) :
  PyStr.contains "." ext = false ->
  let stamp := strftime (created_at instance) "%Y-%m-%d-%H-%M-%S-%F" in
  let number := PyStr.of_N (random_randint 1000 9999 draw) in
  generate_image_filename draw instance (stem +:+ "." +:+ ext)
  = class_name instance +:+ "/" +:+ stamp +:+ "/"
    +:+ stamp +:+ "-" +:+ number +:+ "." +:+ sanitize_as_specified (PyStr.rstrip ext).
Proof.
  intros Hext stamp number. unfold generate_image_filename.
  rewrite (extension_after_last_dot _ _ Hext).
  fold stamp number. unfold stamp, number. rewrite stamped_segment. reflexivity.
Qed.

Lemma generate_image_filename_drops_the_stem_witness :
  PyStr.contains "." "JPG" = false /\
  generate_image_filename 234 post_2024 ("My Photo #1.final" +:+ "." +:+ "JPG")
  = "Post/2024-01-02-03-04-05-2024-01-02/2024-01-02-03-04-05-2024-01-02-1234.JPG".
Proof.
  split; [reflexivity|].
  exact (generate_image_filename_drops_the_stem 234 post_2024 "My Photo #1.final" "JPG"
           eq_refl).
Defined.

(** X20. A file name without any dot is taken whole as the extension: the
    result is [<class>/<timestamp>/<timestamp>-<number>.<name'>], where
    [<name'>] is the file name trimmed on its right and sanitised. *)
Theorem generate_image_filename_without_dot
    (draw : N) (instance : ModelInstance) (filename : string) :
  PyStr.contains "." filename = false ->
  let stamp := strftime (created_at instance) "%Y-%m-%d-%H-%M-%S-%F" in
  let number := PyStr.of_N (random_randint 1000 9999 draw) in
  generate_image_filename draw instance filename
  = class_name instance +:+ "/" +:+ stamp +:+ "/"
    +:+ stamp +:+ "-" +:+ number +:+ "." +:+ sanitize_as_specified (PyStr.rstrip filename).
Proof.
  intros Hnodot stamp number. unfold generate_image_filename.
  rewrite (split_without_separator _ Hnodot). cbn [PyStr.last_item List.last].
  fold stamp number. unfold stamp, number. rewrite stamped_segment. reflexivity.
Qed.

Lemma generate_image_filename_without_dot_witness :
  PyStr.contains "." "my photo" = false /\
  generate_image_filename 234 post_2024 "my photo"
  = "Post/2024-01-02-03-04-05-2024-01-02/2024-01-02-03-04-05-2024-01-02-1234.my_photo".
Proof.
  split; [reflexivity|].
  exact (generate_image_filename_without_dot 234 post_2024 "my photo" eq_refl).
Defined.


Lemma in_class_not_slash (c : ascii) :
  PyStr.in_class c = true -> Ascii.eqb c "/" = false.
Proof.
  destruct c as [[] [] [] [] [] [] [] []]; vm_compute; intros H;
    first [discriminate H | reflexivity].
Qed.

Lemma no_slash_in_class (s : string) :
  PyStr.all_chars PyStr.in_class s = true -> PyStr.contains "/" s = false.
Proof.
  induction s as [|c s IH]; [reflexivity|].
  intros H. cbn [PyStr.all_chars] in H. apply andb_true_iff in H as [Hc Hs].
  cbn [PyStr.contains String.prefix]. rewrite (IH Hs), orb_false_r.
  destruct (ascii_dec "/" c) as [<-|Hne]; [|reflexivity].
  apply in_class_not_slash in Hc. discriminate Hc.
Qed.

(** X21. The file name cannot add a directory level: whatever the
    original file name, neither the timestamp directory nor the final
    segment of the result contains a slash. *)
Theorem generate_image_filename_adds_no_directory
    (draw : N) (instance : ModelInstance) (filename : string) :
  exists segment,
    let stamp := strftime (created_at instance) "%Y-%m-%d-%H-%M-%S-%F" in
    generate_image_filename draw instance filename
      = class_name instance +:+ "/" +:+ stamp +:+ "/" +:+ segment /\
    PyStr.contains "/" stamp = false /\
    PyStr.contains "/" segment = false.
Proof.
  eexists. split; [reflexivity|]. split.
  - apply no_slash_in_class.
    apply (all_chars_impl is_stamp_char); [|apply timestamp_stamp].
    intros c Hc. apply (stamp_char_plain c Hc).
  - apply no_slash_in_class. unfold get_valid_filename. apply re_sub_in_class.
Qed.

(** ** Upload consumes its staging file *)

(** X22. A successful [upload] uses its staging file up: with the world
    as the first call left it, the same call raises an upload error and
    the object stored by the first call stays in the bucket. *)
Theorem upload_twice
    (self : S3Minio.t) (k body : string) (rest rest' : list string) (w : World) :
  valid_staging_file w k body -> no_faults w ->
  exists w1 err w2,
    S3Minio.upload self (k :: rest) w = (Ok (VBool true), w1) /\
    S3Minio.upload self (k :: rest') w1 = (Raised err, w2) /\
    is_upload_error err /\
    objects w2 !! (S3Minio.s3_bucket_name self, k) = Some body.
Proof.
  intros Hvalid Hquiet.
  destruct (upload_iteration_succeeds self k body w Hvalid Hquiet) as [w1 E].
  pose proof (upload_iteration_frame self k w) as (Hfault & _).
  rewrite E in Hfault. cbn [snd] in Hfault.
  pose proof E as E'.
  apply upload_iteration_Ok in E' as [_ (body' & Hfile & Hfs & Hobj & _)].
  destruct Hvalid as [Hfile' _]. rewrite Hfile' in Hfile. injection Hfile as <-.
  assert (Hgone : fs w1 !! staging k = None) by (rewrite Hfs; apply cleaned_up_staging).
  assert (Hanswers : s3_fault w1 (UploadFile (staging k) (S3Minio.s3_bucket_name self) k)
                     = None) by (rewrite Hfault; apply Hquiet).
  destruct (upload_raises_without_file self k rest' w1 Hgone Hanswers)
    as (err & mid & root & w2 & Hcall & Herr & _ & _ & _ & _ & Hsame & _).
  exists w1, err, w2. rewrite upload_cons, E.
  split; [reflexivity|]. split; [exact Hcall|]. split; [exact Herr|].
  rewrite Hsame, Hobj. apply lookup_insert_eq.
Qed.

Lemma upload_twice_witness :
  valid_staging_file quiet_world "a.png" "bytes of a" /\
  no_faults quiet_world /\
  exists w1 err w2,
    S3Minio.upload gateway ["a.png"] quiet_world = (Ok (VBool true), w1) /\
    S3Minio.upload gateway ["a.png"] w1 = (Raised err, w2) /\
    is_upload_error err /\
    objects w2 !! ("media", "a.png") = Some "bytes of a".
Proof.
  assert (Hvalid : valid_staging_file quiet_world "a.png" "bytes of a")
    by (split; vm_compute; reflexivity).
  assert (Hquiet : no_faults quiet_world) by (split; intros c; reflexivity).
  split; [exact Hvalid|]. split; [exact Hquiet|].
  exact (upload_twice gateway "a.png" "bytes of a" [] [] quiet_world Hvalid Hquiet).
Defined.
